(** * Credit-score kernel: the scoring formula, the account-age derivation
      and the per-request fan-out, embedded from the kernel's [index.js].

    Conventions of the embedding.
    - A JavaScript number that holds a count or an epoch time in
      milliseconds is a [Z]; a number that goes through [Math.log],
      [Math.sqrt] or a division is a real ([R]): IEEE doubles are idealised
      as real numbers, so the results below are about the formula the code
      evaluates, not about its rounding in the last bit.
    - A JavaScript object used as a dictionary ([networks], [txData],
      [alchemyInstances]) is a [gmap string _].
    - [null], [undefined] and [NaN] are all falsy and the code never tells
      them apart: an optional number is an [option], and truthiness of a
      number is "present and non-zero".
    - [Math.sqrt] of a negative number is [NaN], which [R] does not have:
      the statements about the age component assume a non-negative age. *)

From Stdlib Require Import Reals Lra Lia ZArith Ascii.
From stdpp Require Import gmap strings list fin_maps.

(** ** Data model *)

(** One entry of the [networks] table. [network] is the value of the SDK's
    [Network.X] member ([None] when the installed SDK does not define it);
    the API key plays no role in any computation and is left out. *)
Record NetworkProfile := {
  network : option string;
  weight : option R;
  enabled : bool;
  supportsInternalTx : bool
}.

(** One entry of [txData]: [{ count, firstTxTimestamp }]. *)
Record ChainData := {
  count : Z;
  firstTxTimestamp : option Z
}.

(** [process.env.MAX_SCORE], [MIN_SCORE] and [PASS_THRESHOLD] after
    [parseInt]. *)
Record Env := {
  MAX_SCORE : Z;
  MIN_SCORE : Z;
  PASS_THRESHOLD : Z
}.

Definition default_env : Env :=
  {| MAX_SCORE := 850; MIN_SCORE := 300; PASS_THRESHOLD := 600 |}.

Inductive Status := pass | fail.

Record ScoreResult := {
  score : Z;
  txCount : Z;
  weightedTxCount : R;
  txComponent : R;
  ageComponent : R;
  activityComponent : R;
  activeNetworks : Z;
  details : gmap string ChainData;
  accountAgeInDays : R;
  status : Status
}.

(** ** JavaScript primitives *)

(** [Math.round x] is [floor (x + 0.5)]. *)
Definition Math_round (x : R) : Z := Zfloor (x + / 2).

(** [w || 0.5] on an optional number: [undefined] and [0] are falsy. *)
Definition or_default (w : option R) (d : R) : R :=
  match w with
  | Some r => if Req_dec_T r 0 then d else r
  | None => d
  end.

(** Truthiness of an optional number ([data.firstTxTimestamp] in a
    condition). *)
Definition truthy (t : option Z) : bool :=
  match t with
  | Some z => negb (z =? 0)%Z
  | None => false
  end.

(** ** [calculateCreditScore] *)

Section Scoring.

Variable nets : gmap string NetworkProfile.
Variable env : Env.

Local Open Scope R_scope.

Definition TX_COUNT_WEIGHT : R := 0.5.
Definition AGE_WEIGHT : R := 0.3.
Definition ACTIVITY_WEIGHT : R := 0.2.
Definition MAX_TX_COUNT : R := 500.
Definition MAX_ACCOUNT_AGE_DAYS : R := 730.
Definition MAX_NETWORKS : R := 5.

(** [networks[network]?.weight || 0.5] *)
Definition networkWeight (chain : string) : R :=
  or_default (nets !! chain ≫= weight) 0.5.

(** The three accumulators of the [for (const [network, data] of
    Object.entries(txData))] loop. *)
Record Totals := {
  totalWeightedTxCount : R;
  totalTransactions : Z;
  activeNetworkCount : Z
}.

Definition totals0 : Totals :=
  {| totalWeightedTxCount := 0; totalTransactions := 0; activeNetworkCount := 0 |}.

Definition loop_body (chain : string) (data : ChainData) (acc : Totals) : Totals :=
  {| totalWeightedTxCount :=
       totalWeightedTxCount acc + IZR (count data) * networkWeight chain;
     totalTransactions := (totalTransactions acc + count data)%Z;
     activeNetworkCount :=
       if (3 <=? count data)%Z then (activeNetworkCount acc + 1)%Z
       else activeNetworkCount acc |}.

Definition totals (txData : gmap string ChainData) : Totals :=
  map_fold loop_body totals0 txData.

Definition txComponent_of (t : Totals) : R :=
  if Rlt_dec 0 (totalWeightedTxCount t)
  then Rmin (ln (totalWeightedTxCount t + 1) / ln (MAX_TX_COUNT + 1)) 1
  else 0.

Definition ageBonus_of (t : Totals) (age : R) : R :=
  if (0 <? totalTransactions t)%Z
  then (if Rlt_dec age 30 then 0.1 else 0)
  else 0.

Definition ageComponent_of (t : Totals) (age : R) : R :=
  Rmin (sqrt (age / MAX_ACCOUNT_AGE_DAYS) + ageBonus_of t age) 1.

Definition activityComponent_of (t : Totals) : R :=
  Rmin (IZR (activeNetworkCount t) / MAX_NETWORKS) 1.

Definition weightedScore_of (t : Totals) (age : R) : R :=
  txComponent_of t * TX_COUNT_WEIGHT
  + ageComponent_of t age * AGE_WEIGHT
  + activityComponent_of t * ACTIVITY_WEIGHT.

Definition finalScore_of (t : Totals) (age : R) : R :=
  IZR (MIN_SCORE env)
  + weightedScore_of t age * (IZR (MAX_SCORE env) - IZR (MIN_SCORE env)).

Definition calculateCreditScore
    (txData : gmap string ChainData) (age : R) : ScoreResult :=
  let t := totals txData in
  {| score := Math_round (finalScore_of t age);
     txCount := totalTransactions t;
     weightedTxCount := totalWeightedTxCount t;
     txComponent := txComponent_of t;
     ageComponent := ageComponent_of t age;
     activityComponent := activityComponent_of t;
     activeNetworks := activeNetworkCount t;
     details := txData;
     accountAgeInDays := age;
     status :=
       if (PASS_THRESHOLD env <=? Math_round (finalScore_of t age))%Z
       then pass else fail |}.

End Scoring.

(** ** The provider's answers *)

(** How a promise raced against the 10 s timer settles: [Rejected] is a
    provider error or the timeout, which the code does not tell apart. *)
Inductive Settled (A : Type) :=
  | Fulfilled (a : A)
  | Rejected.
Arguments Fulfilled {A} a.
Arguments Rejected {A}.

(** A transfer: [blockTimestamp] is [None] when [metadata] or
    [metadata.blockTimestamp] is falsy, and otherwise holds
    [new Date(metadata.blockTimestamp).getTime()] ([None] for [NaN]). *)
Record Transfer := { blockTimestamp : option (option Z) }.

(** The answer of [getAssetTransfers]. *)
Record TransfersResponse := { transfers : option (list Transfer) }.

(** An owned token: [acquiredAt] is [None] when falsy and otherwise holds
    [new Date(nft.acquiredAt).getTime()]. *)
Record Nft := { acquiredAt : option (option Z) }.

Record NftsResponse := { ownedNfts : option (list Nft) }.

(** Everything the provider answers for one chain and one wallet; the outer
    [option] of a response is [None] when the promise resolves to [null] or
    [undefined]. *)
Record ProviderAnswers := {
  getTransactionCount : Settled Z;
  getAssetTransfers_first : Settled (option TransfersResponse);
  getAssetTransfers_more : Settled (option TransfersResponse);
  getAssetTransfers_erc20 : Settled (option TransfersResponse);
  getNftsForOwner : Settled (option NftsResponse)
}.

(** ** One fetch task *)

(** [history.transfers && history.transfers.length > 0 &&
    history.transfers[0].metadata && ...blockTimestamp]: the timestamp of
    the first transfer, when it carries one. *)
Definition head_timestamp (r : TransfersResponse) : option (option Z) :=
  match transfers r with
  | Some (tr :: _) => blockTimestamp tr
  | _ => None
  end.

(** The [for (const transfer of moreTransfers.transfers)] loop with its
    [break]: the first transfer that carries a timestamp. *)
Fixpoint first_timestamp (l : list Transfer) : option (option Z) :=
  match l with
  | [] => None
  | tr :: l' =>
      match blockTimestamp tr with
      | Some t => Some t
      | None => first_timestamp l'
      end
  end.

(** The [for (const nft of nfts.ownedNfts)] loop with its [break]. *)
Fixpoint first_acquired (l : list Nft) : option (option Z) :=
  match l with
  | [] => None
  | n :: l' =>
      match acquiredAt n with
      | Some t => Some t
      | None => first_acquired l'
      end
  end.

(** [x = e] when [e] yields a value, [x] unchanged otherwise. *)
Definition assign (cur : option Z) (new : option (option Z)) : option Z :=
  match new with
  | Some t => t
  | None => cur
  end.

(** The body of [if (txCount > 0) { try { ... } catch (historyError) }]:
    the value of [firstTxTimestamp] when it is left. *)
Definition resolveTimestamp (chain : string) (a : ProviderAnswers) : option Z :=
  match getAssetTransfers_first a with
  | Rejected | Fulfilled None => None
  | Fulfilled (Some history) =>
      let ts1 := assign None (head_timestamp history) in
      if truthy ts1 then ts1 else
      let ts2 :=
        match getAssetTransfers_more a with
        | Fulfilled (Some more) =>
            match transfers more with
            | Some l => assign ts1 (first_timestamp l)
            | None => ts1
            end
        | _ => ts1
        end in
      let ts3 :=
        if truthy ts2 then ts2 else
        match getAssetTransfers_erc20 a with
        | Fulfilled (Some erc20) => assign ts2 (head_timestamp erc20)
        | _ => ts2
        end in
      if negb (truthy ts3) && String.eqb chain "ethereum" then
        match getNftsForOwner a with
        | Fulfilled (Some nfts) =>
            match ownedNfts nfts with
            | Some l => assign ts3 (first_acquired l)
            | None => ts3
            end
        | _ => ts3
        end
      else ts3
  end.

(** One task of the fan-out: [Some d] when it reaches
    [txData[network] = { count: txCount, firstTxTimestamp }], [None] when
    the outer [catch] leaves [txData[network]] as initialised. *)
Definition fetchTask (chain : string) (a : ProviderAnswers) : option ChainData :=
  match getTransactionCount a with
  | Rejected => None
  | Fulfilled txCount =>
      Some {| count := txCount;
              firstTxTimestamp :=
                if (0 <? txCount)%Z then resolveTimestamp chain a else None |}
  end.

(** ** Configuration and the request handler *)

Section Kernel.

(** The [Network] enumeration of the installed alchemy-sdk, by member name:
    [None] for a member this SDK version does not define. *)
Variable Network : string → option string.

(** Whether [new Alchemy(config)] returns for a chain (it may throw, and the
    chain is then left out of [alchemyInstances]). *)
Variable alchemy_ok : string → bool.

Local Open Scope R_scope.

Definition ENABLED_NETWORKS : gmap string bool :=
  list_to_map
    [ ("ethereum", true); ("polygon", true); ("arbitrum", true);
      ("optimism", true); ("base", true); ("avalanche", true);
      ("bsc", true); ("fantom", true); ("zksync", true) ]%string.

(** [ENABLED_NETWORKS.x] in a boolean position. *)
Definition is_enabled (chain : string) : bool :=
  default false (ENABLED_NETWORKS !! chain).

(** [Network.X !== undefined] *)
Definition is_defined (member : string) : bool :=
  bool_decide (is_Some (Network member)).

Definition networks : gmap string NetworkProfile :=
  list_to_map
    [ ("ethereum",
       {| network := Network "ETH_MAINNET"; weight := Some 1.0;
          enabled := is_enabled "ethereum"; supportsInternalTx := true |});
      ("polygon",
       {| network := Network "MATIC_MAINNET"; weight := Some 0.8;
          enabled := is_enabled "polygon"; supportsInternalTx := true |});
      ("arbitrum",
       {| network := Network "ARB_MAINNET"; weight := Some 0.7;
          enabled := is_enabled "arbitrum"; supportsInternalTx := false |});
      ("optimism",
       {| network := Network "OPT_MAINNET"; weight := Some 0.7;
          enabled := is_enabled "optimism"; supportsInternalTx := true |});
      ("base",
       {| network := Network "BASE_MAINNET"; weight := Some 0.7;
          enabled := is_enabled "base"; supportsInternalTx := false |});
      ("avalanche",
       {| network := Network "AVALANCHE_MAINNET"; weight := Some 0.7;
          enabled := is_enabled "avalanche" && is_defined "AVALANCHE_MAINNET";
          supportsInternalTx := false |});
      ("bsc",
       {| network := Network "BSC_MAINNET"; weight := Some 0.6;
          enabled := is_enabled "bsc" && is_defined "BSC_MAINNET";
          supportsInternalTx := false |});
      ("fantom",
       {| network := Network "FANTOM_MAINNET"; weight := Some 0.6;
          enabled := is_enabled "fantom" && is_defined "FANTOM_MAINNET";
          supportsInternalTx := false |});
      ("zksync",
       {| network := Network "ZKSYNC_MAINNET"; weight := Some 0.7;
          enabled := is_enabled "zksync" && is_defined "ZKSYNC_MAINNET";
          supportsInternalTx := false |}) ]%string.

(** The start-up loop over [Object.entries(networks)]: a chain gets an
    Alchemy instance when it is enabled, its SDK network is defined and the
    constructor does not throw. Only the keys matter here. *)
Definition has_instance (chain : string) (p : NetworkProfile) : bool :=
  enabled p && bool_decide (is_Some (network p)) && alchemy_ok chain.

Definition alchemyInstances : gset string :=
  dom (filter (λ kp, has_instance kp.1 kp.2 = true) networks).

(** [for (const network of Object.keys(networks))
       txData[network] = { count: 0, firstTxTimestamp: null }] *)
Definition no_activity : ChainData :=
  {| count := 0; firstTxTimestamp := None |}.

Definition init_txData : gmap string ChainData :=
  map_fold (λ chain _ txData, <[chain := no_activity]> txData) ∅ networks.

(** What one settled task does to the shared [txData]: its single write, or
    nothing when its outer [catch] ran. *)
Definition settle (answers : string → ProviderAnswers)
    (txData : gmap string ChainData) (chain : string) : gmap string ChainData :=
  match fetchTask chain (answers chain) with
  | Some d => <[chain := d]> txData
  | None => txData
  end.

(** [await Promise.allSettled(fetchPromises)]: the tasks run concurrently,
    each writes only its own key and only once, so the map after the join
    is the initial map after the writes of all tasks, taken in the order
    [order] in which they happened to complete. *)
Definition fanout (answers : string → ProviderAnswers) (order : list string)
    : gmap string ChainData :=
  foldl (settle answers) init_txData order.

(** An order in which the tasks of one request can complete: every chain
    with an Alchemy instance, once. *)
Definition completion_order (order : list string) : Prop :=
  order ≡ₚ elements alchemyInstances.

(** *** Account age *)

Record AgeScan := {
  oldestTxTimestamp : option Z;
  hasTxButNoTimestamp : bool
}.

Definition scan0 : AgeScan :=
  {| oldestTxTimestamp := None; hasTxButNoTimestamp := false |}.

(** [data.firstTxTimestamp < oldestTxTimestamp], both numbers. *)
Definition ts_lt (a b : option Z) : bool :=
  match a, b with
  | Some x, Some y => (x <? y)%Z
  | _, _ => false
  end.

Definition scan_body (chain : string) (data : ChainData) (acc : AgeScan) : AgeScan :=
  {| hasTxButNoTimestamp :=
       if (0 <? count data)%Z && negb (truthy (firstTxTimestamp data))
       then true else hasTxButNoTimestamp acc;
     oldestTxTimestamp :=
       if truthy (firstTxTimestamp data)
          && (negb (truthy (oldestTxTimestamp acc))
              || ts_lt (firstTxTimestamp data) (oldestTxTimestamp acc))
       then firstTxTimestamp data else oldestTxTimestamp acc |}.

Definition scan (txData : gmap string ChainData) : AgeScan :=
  map_fold scan_body scan0 txData.

(** [Object.values(txData).reduce((sum, data) => sum + data.count, 0)] *)
Definition totalTxCount (txData : gmap string ChainData) : Z :=
  map_fold (λ _ data sum, (sum + count data)%Z) 0%Z txData.

Definition MS_PER_DAY : Z := 1000 * 60 * 60 * 24.

(** [now] is [Date.now()]. [Math.floor] of the quotient of two integers is
    [Z.div]. *)
Definition accountAge (now : Z) (txData : gmap string ChainData) : Z :=
  let s := scan txData in
  match oldestTxTimestamp s with
  | Some oldest =>
      if truthy (Some oldest) then ((now - oldest) / MS_PER_DAY)%Z
      else if hasTxButNoTimestamp s then Z.min (totalTxCount txData * 5) 365
      else 0%Z
  | None =>
      if hasTxButNoTimestamp s then Z.min (totalTxCount txData * 5) 365
      else 0%Z
  end.

(** The body of the GET handler after validation: fan out, join, derive the
    age, score, and answer with the bare score. *)
Definition walletScore (env : Env) (now : Z)
    (answers : string → ProviderAnswers) (order : list string) : Z :=
  let txData := fanout answers order in
  score (calculateCreditScore networks env txData (IZR (accountAge now txData))).

End Kernel.

(** ** The HTTP surface *)

(** [/^0x[a-fA-F0-9]{40}$/] *)
Definition is_hex (c : Ascii.ascii) : bool :=
  let n := Ascii.nat_of_ascii c in
  ((48 <=? n) && (n <=? 57) || (97 <=? n) && (n <=? 102)
   || (65 <=? n) && (n <=? 70))%nat.

Definition matches_wallet_regex (s : string) : bool :=
  match s with
  | String "0"%char (String "x"%char rest) =>
      (String.length rest =? 40)%nat
      && forallb is_hex (String.list_ascii_of_string rest)
  | _ => false
  end.

(** A value read from the request: a path parameter is always a string, a
    field of the JSON body can be absent or anything else. [JsOther b] is a
    value that is not a string, with truthiness [b]; it has no [match]
    method. *)
Inductive JsValue :=
  | JsUndefined
  | JsString (s : string)
  | JsOther (truthy_value : bool).

Inductive Method := GET | POST | OPTIONS | OtherMethod.

(** A request as the router sees it: method, path segments, the route
    parameter of the matched layer and the [wallet_address] field of the
    parsed body. *)
Record Request := {
  method : Method;
  path : list string;
  params_wallet_address : option string;
  body_wallet_address : JsValue
}.

Definition set_params (p : option string) (req : Request) : Request :=
  {| method := method req; path := path req;
     params_wallet_address := p;
     body_wallet_address := body_wallet_address req |}.

Inductive Response :=
  | Score200 (s : Z)         (* res.json(scoreResult.score) *)
  | InvalidAddress400        (* { error: 'Invalid wallet address' } *)
  | InternalError500         (* { error: 'Internal server error', ... } *)
  | Preflight200             (* res.sendStatus(200) *)
  | NotFound404.             (* no layer matched *)

Section Http.

Variable Network : string → option string.
Variable env : Env.
Variable now : Z.
Variable answers : string → ProviderAnswers.
Variable order : list string.

(** [app.get('/wallet-score/:wallet_address', ...)] *)
Definition get_handler (req : Request) : Response :=
  match params_wallet_address req with
  | Some walletAddress =>
      if negb (walletAddress =? "")%string && matches_wallet_regex walletAddress
      then Score200 (walletScore Network env now answers order)
      else InvalidAddress400
  | None => InvalidAddress400
  end.

(** [app.post('/wallet-score', ...)]; [handle] is [app.handle]. A truthy
    value without a [match] method makes [wallet_address.match] throw, which
    the handler's [catch] turns into a 500. *)
Definition post_handler (handle : Request → option Response)
    (req : Request) : option Response :=
  match body_wallet_address req with
  | JsUndefined | JsOther false => Some InvalidAddress400
  | JsOther true => Some InternalError500
  | JsString wallet_address =>
      if negb (wallet_address =? "")%string && matches_wallet_regex wallet_address
      then handle (set_params (Some wallet_address) req)
      else Some InvalidAddress400
  end.

(** Which route a request is dispatched to. Express matches a layer on the
    request's method and path; the route parameters are those of the
    matched layer, whatever [req.params] held before. *)
Inductive Route :=
  | GetWalletScore (wallet_address : string)
  | PostWalletScore
  | NoRoute.

Definition route_of (req : Request) : Route :=
  match method req, path req with
  | GET, ["wallet-score"; a]%string =>
      if (a =? "")%string then NoRoute else GetWalletScore a
  | POST, ["wallet-score"]%string => PostWalletScore
  | _, _ => NoRoute
  end.

(** [app.handle(req, res)]: the middleware stack, then the routes. The POST
    handler calls [app.handle] again, so the dispatch is bounded by [fuel]:
    [None] means no response was produced within [fuel] dispatches. *)
Fixpoint app_handle (fuel : nat) (req : Request) : option Response :=
  match fuel with
  | O => None
  | S fuel' =>
      match method req with
      | OPTIONS => Some Preflight200
      | _ =>
          match route_of req with
          | GetWalletScore a => Some (get_handler (set_params (Some a) req))
          | PostWalletScore => post_handler (app_handle fuel') (set_params None req)
          | NoRoute => Some NotFound404
          end
      end
  end.

Definition get_request (wallet_address : string) : Request :=
  {| method := GET; path := ["wallet-score"; wallet_address]%string;
     params_wallet_address := None; body_wallet_address := JsUndefined |}.

Definition post_request (wallet_address : JsValue) : Request :=
  {| method := POST; path := ["wallet-score"]%string;
     params_wallet_address := None; body_wallet_address := wallet_address |}.

End Http.

(** ** The formula as the specification words it *)

Definition Rsum (l : list R) : R := foldr Rplus 0%R l.
Definition Zsum (l : list Z) : Z := foldr Z.add 0%Z l.

(** The configured per-chain weight, as a number ([0] stands in for a chain
    that has none; the statements that use it assume every chain has one). *)
Definition configured_weight (nets : gmap string NetworkProfile)
    (chain : string) : R :=
  default 0%R (nets !! chain ≫= weight).

(** Σ(count_i × weight_i) *)
Definition spec_weightedTxCount (w : string → R)
    (txData : gmap string ChainData) : R :=
  Rsum ((λ kd, IZR (count kd.2) * w kd.1)%R <$> map_to_list txData).

(** The total transaction count across chains. *)
Definition spec_totalTransactions (txData : gmap string ChainData) : Z :=
  Zsum ((λ kd, count kd.2) <$> map_to_list txData).

(** min(ln(1 + Σ(count_i × weight_i)) / ln(1 + MAX_TX_COUNT), 1) *)
Definition spec_txComponent (w : string → R)
    (txData : gmap string ChainData) : R :=
  Rmin (ln (1 + spec_weightedTxCount w txData) / ln (1 + 500)) 1.

(** min(sqrt(ageDays / MAX_AGE_DAYS) + ageBonus, 1) *)
Definition spec_ageComponent (age bonus : R) : R :=
  Rmin (sqrt (age / 730) + bonus) 1.

(** The same profile with another weight: what editing the [weight:] line
    of one entry of [networks] does. *)
Definition with_weight (w : option R) (p : NetworkProfile) : NetworkProfile :=
  {| network := network p; weight := w; enabled := enabled p;
     supportsInternalTx := supportsInternalTx p |}.

(** The same entry with another count: what one more (or fewer)
    transactions on a chain do to its entry. *)
Definition with_count (c : Z) (d : ChainData) : ChainData :=
  {| count := c; firstTxTimestamp := firstTxTimestamp d |}.

(** A profile with nothing configured. *)
Definition no_profile : NetworkProfile :=
  {| network := None; weight := None; enabled := false;
     supportsInternalTx := false |}.

(** The map a request ends with when Ethereum reports [n] transactions
    without a timestamp and every other chain reports none. *)
Definition only_ethereum (Network : string → option string) (n : Z)
    : gmap string ChainData :=
  <[ "ethereum"%string := {| count := n; firstTxTimestamp := None |} ]>
    (init_txData Network).

(** [t] is the earliest timestamp any chain produced. *)
Definition earliest_timestamp (txData : gmap string ChainData) (t : Z) : Prop :=
  (∃ chain d, txData !! chain = Some d ∧ firstTxTimestamp d = Some t ∧ t ≠ 0%Z)
  ∧ ∀ chain d t', txData !! chain = Some d → firstTxTimestamp d = Some t' →
                  t' ≠ 0%Z → (t ≤ t')%Z.

(** A provider that is down: every call is rejected. *)
Definition provider_down : ProviderAnswers :=
  {| getTransactionCount := Rejected;
     getAssetTransfers_first := Rejected;
     getAssetTransfers_more := Rejected;
     getAssetTransfers_erc20 := Rejected;
     getNftsForOwner := Rejected |}.

(** Scenario D of the specification: Ethereum reports 10 transactions and
    no query yields a timestamp; every other chain reports no transaction. *)
Definition scenario_D (chain : string) : ProviderAnswers :=
  {| getTransactionCount :=
       Fulfilled (if String.eqb chain "ethereum" then 10%Z else 0%Z);
     getAssetTransfers_first := Fulfilled (Some {| transfers := Some [] |});
     getAssetTransfers_more := Rejected;
     getAssetTransfers_erc20 := Fulfilled (Some {| transfers := None |});
     getNftsForOwner := Fulfilled (Some {| ownedNfts := Some [] |}) |}.

Definition all_chains : list string :=
  [ "ethereum"; "polygon"; "arbitrum"; "optimism"; "base"; "avalanche";
    "bsc"; "fantom"; "zksync" ]%string.

(** The example address of the API description. *)
Definition example_address : string :=
  "0x1234567890abcdef1234567890abcdef12345678".

(** An SDK version that defines every member of [Network]. *)
Definition full_sdk (member : string) : option string := Some member.

(** ** The handler's log line and the page that shows the score *)

(** The label the GET handler logs next to the score:
    [scoreResult.score > passThreshold ? "pass" : "fail"]. *)
Definition logged_label (env : Env) (s : Z) : Status :=
  if (PASS_THRESHOLD env <? s)%Z then pass else fail.

(** The number of chains with at least 3 transactions. *)
Definition spec_activeNetworks (txData : gmap string ChainData) : Z :=
  Z.of_nat (length (filter (λ kd, (3 ≤ count kd.2)%Z) (map_to_list txData))).

(** [getScoreColor] and [getScoreRating] of the front end; the score they
    receive is a JavaScript number. *)
Inductive ScoreColor :=
  | text_green_500
  | text_blue_500
  | text_yellow_500
  | text_red_500.

Inductive ScoreRating := Excellent | Good | Fair | Poor.

Definition getScoreColor (score : R) : ScoreColor :=
  if Rle_dec 750 score then text_green_500
  else if Rle_dec 600 score then text_blue_500
  else if Rle_dec 450 score then text_yellow_500
  else text_red_500.

Definition getScoreRating (score : R) : ScoreRating :=
  if Rle_dec 750 score then Excellent
  else if Rle_dec 600 score then Good
  else if Rle_dec 450 score then Fair
  else Poor.

(** The colour the page uses for each rating band. *)
Definition color_of_rating (r : ScoreRating) : ScoreColor :=
  match r with
  | Excellent => text_green_500
  | Good => text_blue_500
  | Fair => text_yellow_500
  | Poor => text_red_500
  end.

(** The same entry with another timestamp. *)
Definition with_timestamp (t : option Z) (d : ChainData) : ChainData :=
  {| count := count d; firstTxTimestamp := t |}.

(** The same answers with another answer to [getNftsForOwner]. *)
Definition with_nfts (n : Settled (option NftsResponse))
    (a : ProviderAnswers) : ProviderAnswers :=
  {| getTransactionCount := getTransactionCount a;
     getAssetTransfers_first := getAssetTransfers_first a;
     getAssetTransfers_more := getAssetTransfers_more a;
     getAssetTransfers_erc20 := getAssetTransfers_erc20 a;
     getNftsForOwner := n |}.

(** No transaction was found on a chain: its count call was rejected or
    answered 0. *)
Definition no_transactions_found (a : ProviderAnswers) : Prop :=
  getTransactionCount a = Rejected ∨ getTransactionCount a = Fulfilled 0%Z.

(** An entry as the age derivation reads it: a falsy timestamp is as good
    as none. *)
Definition falsy_to_null (d : ChainData) : ChainData :=
  with_timestamp
    (if truthy (firstTxTimestamp d) then firstTxTimestamp d else None) d.

(** Answers in which the first history query is rejected while every later
    query would offer a timestamp. *)
Definition history_down : ProviderAnswers :=
  {| getTransactionCount := Fulfilled 7%Z;
     getAssetTransfers_first := Rejected;
     getAssetTransfers_more :=
       Fulfilled (Some {| transfers :=
         Some [ {| blockTimestamp := Some (Some 1600000000000%Z) |} ] |});
     getAssetTransfers_erc20 :=
       Fulfilled (Some {| transfers :=
         Some [ {| blockTimestamp := Some (Some 1610000000000%Z) |} ] |});
     getNftsForOwner :=
       Fulfilled (Some {| ownedNfts :=
         Some [ {| acquiredAt := Some (Some 1620000000000%Z) |} ] |}) |}.

(** Answers in which the first history query carries a timestamp. *)
Definition history_up : ProviderAnswers :=
  {| getTransactionCount := Fulfilled 7%Z;
     getAssetTransfers_first :=
       Fulfilled (Some {| transfers :=
         Some [ {| blockTimestamp := Some (Some 1500000000000%Z) |} ] |});
     getAssetTransfers_more := getAssetTransfers_more history_down;
     getAssetTransfers_erc20 := getAssetTransfers_erc20 history_down;
     getNftsForOwner := getNftsForOwner history_down |}.

(** ** Facts about the JavaScript primitives *)

Section Primitives.

Local Open Scope R_scope.

Lemma Math_round_eq (z : Z) (x : R) :
  IZR z - / 2 <= x < IZR z + / 2 → Math_round x = z.
Proof. intros Hx. unfold Math_round. apply Zfloor_eq. lra. Qed.

Lemma Math_round_IZR (z : Z) : Math_round (IZR z) = z.
Proof. apply Math_round_eq. lra. Qed.

Lemma Math_round_between (lo hi : Z) (x : R) :
  IZR lo <= x <= IZR hi → (lo ≤ Math_round x ≤ hi)%Z.
Proof.
  intros [Hlo Hhi]. unfold Math_round. split.
  - apply Zfloor_lub. lra.
  - destruct (Zfloor_bound (x + / 2)) as [Hfl _].
    assert (Hlt : IZR (Zfloor (x + / 2)) < IZR (hi + 1)).
    { rewrite plus_IZR. lra. }
    apply lt_IZR in Hlt. lia.
Qed.

Lemma or_default_falsy (w : option R) (d : R) :
  w = None ∨ w = Some 0 → or_default w d = d.
Proof.
  intros [-> | ->]; simpl; [done|].
  destruct (Req_dec_T 0 0) as [_|Hne]; [done | by destruct Hne].
Qed.

Lemma or_default_truthy (r d : R) : r ≠ 0 → or_default (Some r) d = r.
Proof. intros Hr. simpl. by destruct (Req_dec_T r 0). Qed.

Lemma Rmin_mono_l (x y c : R) : x <= y → Rmin x c <= Rmin y c.
Proof. intros Hxy. unfold Rmin. repeat destruct (Rle_dec _ _); lra. Qed.

Lemma Rmin_unit_interval (x : R) : 0 <= x → 0 <= Rmin x 1 <= 1.
Proof. intros Hx. unfold Rmin. destruct (Rle_dec x 1); lra. Qed.

Lemma ln_monotone (x y : R) : 0 < x → x <= y → ln x <= ln y.
Proof.
  intros Hx [Hlt | ->]; [|lra]. apply Rlt_le. by apply ln_increasing.
Qed.

Lemma ln_max_tx_pos : 0 < ln (MAX_TX_COUNT + 1).
Proof.
  unfold MAX_TX_COUNT. rewrite <- ln_1. apply ln_increasing; lra.
Qed.

End Primitives.

(** ** Facts about the loop of [calculateCreditScore] *)

Section ScoringFacts.

Variable nets : gmap string NetworkProfile.

Local Open Scope R_scope.

Lemma loop_body_comm (j1 j2 : string) (z1 z2 : ChainData) (acc : Totals) :
  loop_body nets j1 z1 (loop_body nets j2 z2 acc)
  = loop_body nets j2 z2 (loop_body nets j1 z1 acc).
Proof.
  unfold loop_body; simpl. f_equal.
  - lra.
  - lia.
  - repeat case_match; lia.
Qed.

Lemma totals_insert (txData : gmap string ChainData) chain data :
  txData !! chain = None →
  totals nets (<[chain := data]> txData)
  = loop_body nets chain data (totals nets txData).
Proof.
  intros Hnone. unfold totals.
  apply map_fold_insert_L; [|done].
  intros. apply loop_body_comm.
Qed.

(** Splitting off the entry of one chain. *)
Lemma totals_split (txData : gmap string ChainData) chain data :
  txData !! chain = Some data →
  totals nets txData
  = loop_body nets chain data (totals nets (delete chain txData)).
Proof.
  intros Hsome. rewrite <- totals_insert by apply lookup_delete_eq.
  by rewrite insert_delete_id.
Qed.

Lemma totals_update (txData : gmap string ChainData) chain data :
  totals nets (<[chain := data]> txData)
  = loop_body nets chain data (totals nets (delete chain txData)).
Proof.
  rewrite <- totals_insert by apply lookup_delete_eq.
  by rewrite insert_delete_eq.
Qed.

Lemma totals_foldr (txData : gmap string ChainData) :
  totals nets txData
  = foldr (uncurry (loop_body nets)) totals0 (map_to_list txData).
Proof. apply map_fold_foldr. Qed.

Lemma foldr_weighted (l : list (string * ChainData)) :
  totalWeightedTxCount (foldr (uncurry (loop_body nets)) totals0 l)
  = Rsum ((λ kd, IZR (count kd.2) * networkWeight nets kd.1) <$> l).
Proof.
  unfold Rsum. induction l as [|[k d] l IH]; simpl in *; [done|].
  rewrite IH. apply Rplus_comm.
Qed.

Lemma foldr_transactions (l : list (string * ChainData)) :
  totalTransactions (foldr (uncurry (loop_body nets)) totals0 l)
  = Zsum ((λ kd, count kd.2) <$> l).
Proof.
  unfold Zsum. induction l as [|[k d] l IH]; simpl in *; [done|].
  rewrite IH. apply Z.add_comm.
Qed.

Lemma foldr_active_nonneg (l : list (string * ChainData)) :
  (0 ≤ activeNetworkCount (foldr (uncurry (loop_body nets)) totals0 l))%Z.
Proof.
  induction l as [|[k d] l IH]; simpl; [done|]. case_match; lia.
Qed.

(** The loop's weighted count is the sum over the entries, each chain
    weighted with [networks[chain]?.weight || 0.5]. *)
Lemma totals_weighted (txData : gmap string ChainData) :
  totalWeightedTxCount (totals nets txData)
  = spec_weightedTxCount (networkWeight nets) txData.
Proof. rewrite totals_foldr. apply foldr_weighted. Qed.

Lemma totals_transactions (txData : gmap string ChainData) :
  totalTransactions (totals nets txData) = spec_totalTransactions txData.
Proof. rewrite totals_foldr. apply foldr_transactions. Qed.

Lemma totals_active_nonneg (txData : gmap string ChainData) :
  (0 ≤ activeNetworkCount (totals nets txData))%Z.
Proof. rewrite totals_foldr. apply foldr_active_nonneg. Qed.

(** With every count zero the loop leaves its accumulators at zero. *)
Lemma totals_no_transactions (txData : gmap string ChainData) :
  (∀ chain d, txData !! chain = Some d → count d = 0%Z) →
  totals nets txData = totals0.
Proof.
  unfold totals.
  apply (map_fold_weak_ind
           (λ acc m, (∀ chain d, m !! chain = Some d → count d = 0%Z) →
                     acc = totals0)).
  - done.
  - intros k d m acc Hnone IH Hall.
    rewrite IH.
    + assert (Hd : count d = 0%Z) by (apply (Hall k); apply lookup_insert_eq).
      unfold loop_body, totals0; simpl. rewrite Hd; simpl. f_equal. lra.
    + intros k' d' Hk'. apply (Hall k').
      rewrite lookup_insert_ne; [done|]. intros ->. congruence.
Qed.

(** *** The three components lie in the unit interval *)

Lemma txComponent_of_bounds (t : Totals) : 0 <= txComponent_of t <= 1.
Proof.
  unfold txComponent_of. destruct (Rlt_dec 0 (totalWeightedTxCount t)) as [Hpos|_].
  - apply Rmin_unit_interval.
    apply Rlt_le, Rdiv_lt_0_compat; [|apply ln_max_tx_pos].
    rewrite <- ln_1. apply ln_increasing; lra.
  - lra.
Qed.

Lemma ageBonus_of_nonneg (t : Totals) (age : R) : 0 <= ageBonus_of t age.
Proof. unfold ageBonus_of. repeat case_match; lra. Qed.

Lemma ageComponent_of_bounds (t : Totals) (age : R) :
  0 <= ageComponent_of t age <= 1.
Proof.
  unfold ageComponent_of. apply Rmin_unit_interval.
  pose proof (sqrt_pos (age / MAX_ACCOUNT_AGE_DAYS)).
  pose proof (ageBonus_of_nonneg t age). lra.
Qed.

Lemma activityComponent_of_bounds (t : Totals) :
  (0 ≤ activeNetworkCount t)%Z → 0 <= activityComponent_of t <= 1.
Proof.
  intros Hnn. unfold activityComponent_of, MAX_NETWORKS.
  apply Rmin_unit_interval. apply IZR_le in Hnn. lra.
Qed.

Lemma weightedScore_of_bounds (t : Totals) (age : R) :
  (0 ≤ activeNetworkCount t)%Z → 0 <= weightedScore_of t age <= 1.
Proof.
  intros Hnn. unfold weightedScore_of, TX_COUNT_WEIGHT, AGE_WEIGHT, ACTIVITY_WEIGHT.
  pose proof (txComponent_of_bounds t).
  pose proof (ageComponent_of_bounds t age).
  pose proof (activityComponent_of_bounds t Hnn). lra.
Qed.

(** The transaction component grows with the weighted count. *)
Lemma txComponent_of_mono (t t' : Totals) :
  totalWeightedTxCount t <= totalWeightedTxCount t' →
  txComponent_of t <= txComponent_of t'.
Proof.
  intros Hle. unfold txComponent_of.
  destruct (Rlt_dec 0 (totalWeightedTxCount t)) as [Hpos|Hnpos];
    destruct (Rlt_dec 0 (totalWeightedTxCount t')) as [Hpos'|Hnpos']; try lra.
  - apply Rmin_mono_l. apply Rmult_le_compat_r.
    + apply Rlt_le, Rinv_0_lt_compat, ln_max_tx_pos.
    + apply ln_monotone; lra.
  - apply Rmin_unit_interval.
    apply Rlt_le, Rdiv_lt_0_compat; [|apply ln_max_tx_pos].
    rewrite <- ln_1. apply ln_increasing; lra.
Qed.

End ScoringFacts.

(** ** The score *)

Section ScoreTheorems.

Local Open Scope R_scope.

Lemma finalScore_of_bounds nets env (txData : gmap string ChainData) age :
  (MIN_SCORE env ≤ MAX_SCORE env)%Z →
  IZR (MIN_SCORE env) <= finalScore_of env (totals nets txData) age
    <= IZR (MAX_SCORE env).
Proof.
  intros Hrange. unfold finalScore_of.
  pose proof (weightedScore_of_bounds (totals nets txData) age
                (totals_active_nonneg nets txData)) as [Hlo Hhi].
  apply IZR_le in Hrange. nra.
Qed.

(** C1. For every transaction-data map and every non-negative account age,
    [calculateCreditScore] returns a score, an integer, that lies between
    [MIN_SCORE] and [MAX_SCORE] (300 and 850 by default). The function is
    total by construction; the configured range is assumed non-empty. The
    bound does not depend on the counts being non-negative. *)
Theorem calculateCreditScore_score_in_range
    nets env (txData : gmap string ChainData) (age : R) :
  (MIN_SCORE env ≤ MAX_SCORE env)%Z →
  0 <= age →
  (MIN_SCORE env ≤ score (calculateCreditScore nets env txData age)
     ≤ MAX_SCORE env)%Z.
Proof.
  intros Hrange _. simpl.
  apply Math_round_between. by apply finalScore_of_bounds.
Qed.

Lemma calculateCreditScore_score_in_range_witness :
  (300 ≤ score (calculateCreditScore (networks full_sdk) default_env
                  {[ "ethereum"%string := {| count := 12; firstTxTimestamp := None |} ]}
                  45)
     ≤ 850)%Z.
Proof.
  apply (calculateCreditScore_score_in_range (networks full_sdk) default_env).
  - simpl. lia.
  - lra.
Defined.

(** C5. When every chain's count is 0 and the account age is 0, the score
    is [MIN_SCORE] (300 by default), the transaction, age and activity
    components are all 0, and no age bonus is applied. *)
Theorem zero_activity_scores_minimum
    nets env (txData : gmap string ChainData) :
  (∀ chain d, txData !! chain = Some d → count d = 0%Z) →
  let r := calculateCreditScore nets env txData 0 in
  score r = MIN_SCORE env
  ∧ txComponent r = 0 ∧ ageComponent r = 0 ∧ activityComponent r = 0
  ∧ ageBonus_of (totals nets txData) 0 = 0
  ∧ score (calculateCreditScore nets default_env txData 0) = 300%Z.
Proof.
  intros Hzero. simpl. rewrite (totals_no_transactions nets txData Hzero).
  assert (Htx : txComponent_of totals0 = 0).
  { unfold txComponent_of, totals0; simpl.
    destruct (Rlt_dec 0 0); [lra | done]. }
  assert (Hbonus : ageBonus_of totals0 0 = 0) by done.
  assert (Hage : ageComponent_of totals0 0 = 0).
  { unfold ageComponent_of. rewrite Hbonus.
    unfold MAX_ACCOUNT_AGE_DAYS.
    replace (0 / 730) with 0 by lra. rewrite sqrt_0.
    unfold Rmin. destruct (Rle_dec (0 + 0) 1); lra. }
  assert (Hact : activityComponent_of totals0 = 0).
  { unfold activityComponent_of, totals0, MAX_NETWORKS; simpl.
    unfold Rmin. destruct (Rle_dec (0 / 5) 1); lra. }
  assert (Hfinal : ∀ e, finalScore_of e totals0 0 = IZR (MIN_SCORE e)).
  { intros e. unfold finalScore_of, weightedScore_of.
    rewrite Htx, Hage, Hact. lra. }
  rewrite !Hfinal, !Math_round_IZR. done.
Qed.

Lemma zero_activity_scores_minimum_witness :
  score (calculateCreditScore (networks full_sdk) default_env
           {[ "ethereum"%string := no_activity ]} 0) = 300%Z.
Proof.
  apply (zero_activity_scores_minimum (networks full_sdk) default_env
           {[ "ethereum"%string := no_activity ]}).
  intros chain d Hd. apply lookup_singleton_Some in Hd as [_ <-]. reflexivity.
Defined.

(** C3. The age component is min(sqrt(age / 730) + ageBonus, 1), where
    ageBonus is 0.1 exactly when the total transaction count across chains
    is positive and the age is below 30 days, and 0 otherwise. *)
Theorem ageComponent_formula
    nets env (txData : gmap string ChainData) (age : R) :
  0 <= age →
  ∃ ageBonus,
    ageComponent (calculateCreditScore nets env txData age)
    = spec_ageComponent age ageBonus
    ∧ ((0 < spec_totalTransactions txData)%Z ∧ age < 30 → ageBonus = 0.1)
    ∧ (¬ ((0 < spec_totalTransactions txData)%Z ∧ age < 30) → ageBonus = 0).
Proof.
  intros _. exists (ageBonus_of (totals nets txData) age).
  split; [reflexivity|].
  unfold ageBonus_of. rewrite totals_transactions.
  destruct (0 <? spec_totalTransactions txData)%Z eqn:Htot;
    destruct (Rlt_dec age 30) as [Hage|Hage].
  - split; [done | intros Hn; destruct Hn; split; [lia | done]].
  - split; [intros [_ ?]; lra | done].
  - split; [intros [? _]; lia | done].
  - split; [intros [? _]; lia | done].
Qed.

Lemma ageComponent_formula_witness :
  ∃ ageBonus,
    ageComponent (calculateCreditScore (networks full_sdk) default_env
                    {[ "ethereum"%string := {| count := 12; firstTxTimestamp := None |} ]}
                    20)
    = spec_ageComponent 20 ageBonus
    ∧ ((0 < spec_totalTransactions
              {[ "ethereum"%string := {| count := 12; firstTxTimestamp := None |} ]})%Z
       ∧ 20 < 30 → ageBonus = 0.1)
    ∧ (¬ ((0 < spec_totalTransactions
                {[ "ethereum"%string := {| count := 12; firstTxTimestamp := None |} ]})%Z
          ∧ 20 < 30) → ageBonus = 0).
Proof.
  apply (ageComponent_formula (networks full_sdk) default_env). lra.
Defined.

End ScoreTheorems.

(** ** Chain weights *)

Section WeightTheorems.

Local Open Scope R_scope.

(** The score depends on the table only through [networks[chain]?.weight ||
    0.5]. *)
Lemma calculateCreditScore_ext nets nets' env
    (txData : gmap string ChainData) (age : R) :
  (∀ chain, networkWeight nets chain = networkWeight nets' chain) →
  calculateCreditScore nets env txData age
  = calculateCreditScore nets' env txData age.
Proof.
  intros Hw.
  assert (Ht : totals nets txData = totals nets' txData).
  { rewrite !totals_foldr.
    induction (map_to_list txData) as [|[k d] l IH]; simpl; [done|].
    rewrite IH. unfold loop_body. by rewrite Hw. }
  unfold calculateCreditScore. by rewrite Ht.
Qed.

Lemma networkWeight_with_weight nets chain p w chain' :
  nets !! chain = Some p →
  networkWeight (<[chain := with_weight w p]> nets) chain'
  = if decide (chain = chain') then or_default w 0.5
    else networkWeight nets chain'.
Proof.
  intros Hp. unfold networkWeight. rewrite lookup_insert.
  case_decide; [done|done].
Qed.

(** C9. A chain whose configured weight is absent or zero enters the
    weighted transaction count with weight 0.5; a chain configured with
    such a weight is scored exactly as if its weight were 0.5. *)
Theorem falsy_weight_counts_as_half nets (chain : string) :
  nets !! chain ≫= weight = None ∨ nets !! chain ≫= weight = Some 0 →
  networkWeight nets chain = 0.5
  ∧ (∀ data acc,
       totalWeightedTxCount (loop_body nets chain data acc)
       = totalWeightedTxCount acc + IZR (count data) * 0.5)
  ∧ (∀ p env (txData : gmap string ChainData) age,
       nets !! chain = Some p →
       calculateCreditScore nets env txData age
       = calculateCreditScore (<[chain := with_weight (Some 0.5) p]> nets)
           env txData age).
Proof.
  intros Hfalsy.
  assert (Hw : networkWeight nets chain = 0.5).
  { unfold networkWeight. by apply or_default_falsy. }
  split; [done|]. split.
  - intros data acc. simpl. by rewrite Hw.
  - intros p env txData age Hp. apply calculateCreditScore_ext.
    intros chain'. rewrite (networkWeight_with_weight _ _ _ _ _ Hp).
    case_decide as Heq.
    + subst chain'. rewrite Hw. symmetry. apply or_default_truthy. lra.
    + done.
Qed.

Lemma falsy_weight_counts_as_half_witness :
  networkWeight
    (<[ "ethereum"%string := with_weight (Some 0) no_profile ]> ∅)
    "ethereum" = 0.5.
Proof.
  apply (falsy_weight_counts_as_half
           (<[ "ethereum"%string := with_weight (Some 0) no_profile ]> ∅)
           "ethereum").
  right. rewrite lookup_insert_eq. reflexivity.
Defined.

End WeightTheorems.

(** ** The configured table *)

Section ConfiguredTable.

Variable Network : string → option string.

Local Open Scope R_scope.

(** Every entry of [networks] has a weight, and it is positive. *)
Lemma networks_weight_positive chain p :
  networks Network !! chain = Some p →
  ∃ w, weight p = Some w ∧ 0 < w.
Proof.
  unfold networks. intros Hp. apply elem_of_list_to_map_2 in Hp.
  repeat (apply elem_of_cons in Hp as [Hp|Hp];
          [simplify_eq; simpl; eexists; split; [reflexivity | lra]|]).
  by apply elem_of_nil in Hp.
Qed.

(** For a configured chain, the weight the loop uses is the configured one. *)
Lemma networkWeight_configured chain :
  chain ∈ dom (networks Network) →
  networkWeight (networks Network) chain
  = configured_weight (networks Network) chain
  ∧ 0 < networkWeight (networks Network) chain.
Proof.
  intros [p Hp]%elem_of_dom.
  destruct (networks_weight_positive chain p Hp) as (w & Hw & Hpos).
  unfold networkWeight, configured_weight. rewrite Hp; simpl. rewrite Hw; simpl.
  destruct (Req_dec_T w 0); lra.
Qed.

(** Whatever the chain, the weight the loop uses is positive. *)
Lemma networkWeight_positive chain :
  0 < networkWeight (networks Network) chain.
Proof.
  destruct (networks Network !! chain) as [p|] eqn:Hp.
  - apply networkWeight_configured. apply elem_of_dom. eauto.
  - unfold networkWeight. rewrite Hp; simpl. lra.
Qed.

Lemma Rsum_nonneg (l : list R) : Forall (λ x, 0 <= x) l → 0 <= Rsum l.
Proof.
  unfold Rsum. induction 1 as [|x l Hx _ IH]; simpl; lra.
Qed.

Lemma weighted_configured (txData : gmap string ChainData) :
  dom txData ⊆ dom (networks Network) →
  spec_weightedTxCount (networkWeight (networks Network)) txData
  = spec_weightedTxCount (configured_weight (networks Network)) txData.
Proof.
  intros Hdom. unfold spec_weightedTxCount. f_equal.
  apply list_fmap_ext. intros i [k d] Hi; simpl.
  assert (Hk : k ∈ dom (networks Network)).
  { apply Hdom, elem_of_dom. exists d.
    apply elem_of_map_to_list, list_elem_of_lookup. eauto. }
  by destruct (networkWeight_configured k Hk) as [-> _].
Qed.

Lemma weighted_nonneg (txData : gmap string ChainData) :
  (∀ chain d, txData !! chain = Some d → (0 ≤ count d)%Z) →
  0 <= spec_weightedTxCount (networkWeight (networks Network)) txData.
Proof.
  intros Hnn. apply Rsum_nonneg, Forall_fmap, Forall_forall.
  intros [k d] Hkd%elem_of_map_to_list; simpl.
  apply Hnn, IZR_le in Hkd. pose proof (networkWeight_positive k). nra.
Qed.

(** C2. The transaction component is
    min(ln(1 + Σ(count_i × weight_i)) / ln(1 + 500), 1) with weight_i the
    weight configured for chain i, and lies in [0,1]. *)
Theorem txComponent_formula env (txData : gmap string ChainData) (age : R) :
  dom txData ⊆ dom (networks Network) →
  (∀ chain d, txData !! chain = Some d → (0 ≤ count d)%Z) →
  txComponent (calculateCreditScore (networks Network) env txData age)
  = spec_txComponent (configured_weight (networks Network)) txData
  ∧ 0 <= txComponent (calculateCreditScore (networks Network) env txData age)
      <= 1.
Proof.
  intros Hdom Hnn. split; [|apply txComponent_of_bounds].
  simpl. unfold txComponent_of, spec_txComponent.
  rewrite totals_weighted, <- (weighted_configured txData Hdom).
  pose proof (weighted_nonneg txData Hnn) as Hsum.
  set (total := spec_weightedTxCount _ _) in *.
  unfold MAX_TX_COUNT.
  replace (1 + total) with (total + 1) by lra.
  replace (1 + 500) with (500 + 1) by lra.
  destruct (Rlt_dec 0 total) as [Hpos|Hzero]; [done|].
  assert (Htotal : total = 0) by lra. rewrite Htotal.
  replace (0 + 1) with 1 by lra. rewrite ln_1.
  unfold Rdiv. rewrite Rmult_0_l.
  unfold Rmin. destruct (Rle_dec 0 1); lra.
Qed.

(** C7. Increasing one chain's transaction count, everything else in the
    map unchanged, never decreases the transaction component. *)
Theorem txComponent_monotone env (txData : gmap string ChainData)
    (chain : string) (d : ChainData) (c' : Z) (age : R) :
  txData !! chain = Some d →
  (count d ≤ c')%Z →
  txComponent (calculateCreditScore (networks Network) env txData age)
  <= txComponent
       (calculateCreditScore (networks Network) env
          (<[chain := with_count c' d]> txData) age).
Proof.
  intros Hd Hle. simpl. apply txComponent_of_mono.
  rewrite (totals_split _ _ _ _ Hd), totals_update. simpl.
  apply IZR_le in Hle. pose proof (networkWeight_positive chain). nra.
Qed.

End ConfiguredTable.

Lemma txComponent_formula_witness :
  txComponent (calculateCreditScore (networks full_sdk) default_env
                 {[ "polygon"%string := {| count := 7; firstTxTimestamp := None |} ]}
                 0%R)
  = spec_txComponent (configured_weight (networks full_sdk))
      {[ "polygon"%string := {| count := 7; firstTxTimestamp := None |} ]}
  ∧ (0 <= txComponent
            (calculateCreditScore (networks full_sdk) default_env
               {[ "polygon"%string := {| count := 7; firstTxTimestamp := None |} ]}
               0%R)
     <= 1)%R.
Proof.
  apply (txComponent_formula full_sdk default_env).
  - apply (bool_decide_unpack _). vm_compute. reflexivity.
  - intros chain d Hd. apply lookup_singleton_Some in Hd as [_ <-]. simpl. lia.
Defined.

Lemma txComponent_monotone_witness :
  (txComponent (calculateCreditScore (networks full_sdk) default_env
                  {[ "polygon"%string := {| count := 7; firstTxTimestamp := None |} ]}
                  0%R)
   <= txComponent
        (calculateCreditScore (networks full_sdk) default_env
           (<[ "polygon"%string :=
                 with_count 9 {| count := 7; firstTxTimestamp := None |} ]>
              {[ "polygon"%string := {| count := 7; firstTxTimestamp := None |} ]})
           0%R))%R.
Proof.
  apply (txComponent_monotone full_sdk default_env).
  - apply lookup_singleton_eq.
  - simpl. lia.
Defined.

(** ** The age bonus and the 30-day edge *)

Section AgeEdge.

Variable Network : string → option string.

Local Open Scope R_scope.

Lemma init_txData_fmap :
  init_txData Network = (λ _, no_activity) <$> networks Network.
Proof.
  unfold init_txData.
  apply (map_fold_weak_ind
           (λ acc m, acc = (λ _ : NetworkProfile, no_activity) <$> m)).
  - by rewrite fmap_empty.
  - intros k p m acc _ ->. by rewrite fmap_insert.
Qed.

Lemma init_txData_lookup chain d :
  init_txData Network !! chain = Some d → d = no_activity.
Proof.
  rewrite init_txData_fmap, lookup_fmap_Some. by intros (p & <- & _).
Qed.

Lemma totals_only_ethereum n :
  totals (networks Network) (only_ethereum Network n)
  = {| totalWeightedTxCount := IZR n;
       totalTransactions := n;
       activeNetworkCount := if (3 <=? n)%Z then 1 else 0 |}.
Proof.
  unfold only_ethereum. rewrite totals_update.
  rewrite totals_no_transactions.
  - assert (Hw : networkWeight (networks Network) "ethereum" = 1).
    { unfold networkWeight.
      assert (networks Network !! "ethereum"%string ≫= weight = Some 1.0)
        as -> by reflexivity.
      rewrite or_default_truthy; lra. }
    unfold loop_body, totals0; simpl. rewrite Hw. f_equal; lra.
  - intros chain d [_ Hd]%lookup_delete_Some.
    by rewrite (init_txData_lookup _ _ Hd).
Qed.

Lemma sqrt_between (lo hi x : R) :
  0 <= lo → 0 <= hi → lo * lo <= x <= hi * hi → lo <= sqrt x <= hi.
Proof.
  intros Hlo Hhi [Hx1 Hx2].
  split.
  - rewrite <- (sqrt_square lo Hlo) at 1. apply sqrt_le_1; nra.
  - rewrite <- (sqrt_square hi Hhi) at 1. apply sqrt_le_1; nra.
Qed.

(** With 500 Ethereum transactions the transaction component is saturated
    and one network is active, so the score only moves with the age. *)
Lemma finalScore_busy (age : R) :
  finalScore_of default_env
    (totals (networks Network) (only_ethereum Network 500)) age
  = 300 + (0.54 + 0.3 * Rmin (sqrt (age / 730)
                               + (if Rlt_dec age 30 then 0.1 else 0)) 1) * 550.
Proof.
  rewrite totals_only_ethereum.
  unfold finalScore_of, weightedScore_of, txComponent_of, ageComponent_of,
    activityComponent_of, ageBonus_of, TX_COUNT_WEIGHT, AGE_WEIGHT,
    ACTIVITY_WEIGHT, MAX_TX_COUNT, MAX_ACCOUNT_AGE_DAYS, MAX_NETWORKS; simpl.
  destruct (Rlt_dec 0 500) as [_|Hn]; [|lra].
  assert (Hln : ln (500 + 1) / ln (500 + 1) = 1).
  { apply Rdiv_diag. pose proof ln_max_tx_pos as Hpos.
    unfold MAX_TX_COUNT in Hpos. lra. }
  rewrite Hln.
  assert (Hone : Rmin 1 1 = 1) by (unfold Rmin; destruct (Rle_dec 1 1); lra).
  assert (Hact : Rmin (1 / 5) 1 = 1 / 5)
    by (unfold Rmin; destruct (Rle_dec (1 / 5) 1); lra).
  rewrite Hone, Hact. lra.
Qed.

Lemma score_busy_day_29 :
  score (calculateCreditScore (networks Network) default_env
           (only_ethereum Network 500) 29) = 646%Z.
Proof.
  simpl. apply Math_round_eq. rewrite finalScore_busy.
  destruct (Rlt_dec 29 30) as [_|Hn]; [|lra].
  destruct (sqrt_between 0.199 0.1995 (29 / 730)) as [Hlo Hhi]; [lra..|].
  unfold Rmin. destruct (Rle_dec (sqrt (29 / 730) + 0.1) 1); lra.
Qed.

Lemma score_busy_day_30 :
  score (calculateCreditScore (networks Network) default_env
           (only_ethereum Network 500) 30) = 630%Z.
Proof.
  simpl. apply Math_round_eq. rewrite finalScore_busy.
  destruct (Rlt_dec 30 30) as [Hn|_]; [lra|].
  destruct (sqrt_between 0.2027 0.2028 (30 / 730)) as [Hlo Hhi]; [lra..|].
  unfold Rmin. destruct (Rle_dec (sqrt (30 / 730) + 0) 1); lra.
Qed.

(** C10. The score is not monotone in the account age: for a wallet with
    transactions there are ages a < b, namely 29 and 30 days, at which the
    score at b is strictly lower than at a (646 against 630 for a wallet
    with 500 Ethereum transactions), because the 0.1 bonus stops at day 30. *)
Theorem score_not_monotone_in_age :
  ∃ (txData : gmap string ChainData) (a b : R),
    (0 < spec_totalTransactions txData)%Z
    ∧ a = 29 ∧ b = 30 ∧ 0 <= a < b
    ∧ (score (calculateCreditScore (networks Network) default_env txData b)
       < score (calculateCreditScore (networks Network) default_env txData a))%Z.
Proof.
  exists (only_ethereum Network 500), 29, 30.
  split.
  { rewrite <- (totals_transactions (networks Network)), totals_only_ethereum.
    simpl. lia. }
  split; [done|]. split; [done|]. split; [lra|].
  rewrite score_busy_day_29, score_busy_day_30. lia.
Qed.

End AgeEdge.

(** ** The fan-out and its join *)

Section FanoutFacts.

Variable Network : string → option string.
Variable answers : string → ProviderAnswers.

(** A task only reports a timestamp for a chain with transactions. *)
Lemma fetchTask_timestamp_count chain a d :
  fetchTask chain a = Some d →
  truthy (firstTxTimestamp d) = true → (0 < count d)%Z.
Proof.
  unfold fetchTask. destruct (getTransactionCount a) as [txCount|]; [|done].
  intros [= <-]; simpl.
  destruct (0 <? txCount)%Z eqn:Hpos; [lia | done].
Qed.

(** What the map holds for a chain after the tasks in [order] have settled,
    whatever the order: the task's result when the chain had a task that
    reached its write, and the earlier entry otherwise. *)
Lemma foldl_settle_lookup (order : list string)
    (txData : gmap string ChainData) (chain : string) :
  foldl (settle answers) txData order !! chain
  = if decide (chain ∈ order)
    then match fetchTask chain (answers chain) with
         | Some d => Some d
         | None => txData !! chain
         end
    else txData !! chain.
Proof.
  revert txData. induction order as [|c order IH]; intros txData; cbn [foldl].
  - by rewrite decide_False by apply not_elem_of_nil.
  - rewrite IH. unfold settle.
    destruct (decide (chain = c)) as [->|Hne].
    + rewrite (decide_True (P := c ∈ c :: order)) by apply list_elem_of_here.
      destruct (fetchTask c (answers c)) as [d|].
      * rewrite lookup_insert_eq. by destruct (decide (c ∈ order)).
      * by destruct (decide (c ∈ order)).
    + assert (Hiff : chain ∈ c :: order ↔ chain ∈ order).
      { rewrite elem_of_cons. split; [by intros [?|?] | by right]. }
      assert (Hlk : match fetchTask c (answers c) with
                    | Some d => <[c := d]> txData
                    | None => txData
                    end !! chain = txData !! chain).
      { destruct (fetchTask c (answers c)); [by rewrite lookup_insert_ne|done]. }
      rewrite Hlk.
      destruct (decide (chain ∈ order)) as [Hin|Hnin].
      * by rewrite decide_True by (by apply Hiff).
      * by rewrite decide_False by (by rewrite Hiff).
Qed.

Lemma fanout_lookup (order : list string) (chain : string) :
  fanout Network answers order !! chain
  = if decide (chain ∈ order)
    then match fetchTask chain (answers chain) with
         | Some d => Some d
         | None => init_txData Network !! chain
         end
    else init_txData Network !! chain.
Proof. apply foldl_settle_lookup. Qed.

Lemma init_txData_lookup_Some chain :
  chain ∈ dom (networks Network) →
  init_txData Network !! chain = Some no_activity.
Proof.
  intros [p Hp]%elem_of_dom.
  by rewrite init_txData_fmap, lookup_fmap, Hp.
Qed.

Lemma init_txData_dom : dom (init_txData Network) = dom (networks Network).
Proof. by rewrite init_txData_fmap, dom_fmap_L. Qed.

(** Every timestamp in the joined map belongs to a chain with
    transactions. *)
Lemma fanout_timestamp_count (order : list string) chain d :
  fanout Network answers order !! chain = Some d →
  truthy (firstTxTimestamp d) = true → (0 < count d)%Z.
Proof.
  rewrite fanout_lookup. intros Hd Hts.
  assert (Hinit : init_txData Network !! chain = Some d → (0 < count d)%Z).
  { intros Hi. apply init_txData_lookup in Hi. by subst d. }
  case_decide; [|by apply Hinit].
  destruct (fetchTask chain (answers chain)) as [d'|] eqn:Htask;
    [|by apply Hinit].
  injection Hd as ->. by eapply fetchTask_timestamp_count.
Qed.

End FanoutFacts.

Section FanoutJoin.

Variable Network : string → option string.
Variable alchemy_ok : string → bool.
Variable answers : string → ProviderAnswers.

Lemma alchemyInstances_configured chain :
  chain ∈ alchemyInstances Network alchemy_ok → chain ∈ dom (networks Network).
Proof. unfold alchemyInstances. apply dom_filter_subseteq. Qed.

Lemma alchemyInstances_enabled chain p :
  networks Network !! chain = Some p →
  chain ∈ alchemyInstances Network alchemy_ok →
  enabled p = true.
Proof.
  unfold alchemyInstances. intros Hp [q Hq]%elem_of_dom.
  apply map_lookup_filter_Some in Hq as [Hq Hinst]. simpl in Hinst.
  assert (q = p) as -> by congruence.
  unfold has_instance in Hinst.
  by apply andb_prop in Hinst as [[? _]%andb_prop _].
Qed.

Lemma networks_size : size (networks Network) = 9%nat.
Proof. vm_compute. reflexivity. Qed.

Lemma rejected_count_no_write chain a :
  getTransactionCount a = Rejected → fetchTask chain a = None.
Proof. unfold fetchTask. by intros ->. Qed.

(** C6. After the join the transaction-data map has exactly one entry for
    each of the nine configured chains, and a chain that was skipped (it is
    disabled or has no Alchemy instance) or whose fetch failed or timed out
    carries [{ count: 0, firstTxTimestamp: null }]. *)
Theorem fanout_covers_every_chain (order : list string) :
  completion_order Network alchemy_ok order →
  let txData := fanout Network answers order in
  dom txData = dom (networks Network)
  ∧ size txData = 9%nat
  ∧ NoDup (map_to_list txData).*1
  ∧ (∀ chain, chain ∈ dom (networks Network) →
       chain ∉ alchemyInstances Network alchemy_ok
       ∨ getTransactionCount (answers chain) = Rejected →
       txData !! chain = Some no_activity)
  ∧ (∀ chain p, networks Network !! chain = Some p → enabled p = false →
       txData !! chain = Some no_activity).
Proof.
  intros Horder txData.
  assert (Hin : ∀ chain, chain ∈ order ↔ chain ∈ alchemyInstances Network alchemy_ok).
  { intros chain. unfold completion_order in Horder.
    rewrite Horder. apply elem_of_elements. }
  assert (Hdom : dom txData = dom (networks Network)).
  { apply set_eq. intros chain. subst txData.
    rewrite <- (init_txData_dom Network), !elem_of_dom, fanout_lookup.
    case_decide as Hc; [|done].
    destruct (fetchTask chain (answers chain)) as [d|]; [|done].
    split; [intros _ | by eauto].
    apply elem_of_dom. rewrite init_txData_dom.
    by apply alchemyInstances_configured, Hin. }
  assert (Hskip : ∀ chain, chain ∈ dom (networks Network) →
            chain ∉ alchemyInstances Network alchemy_ok
            ∨ getTransactionCount (answers chain) = Rejected →
            txData !! chain = Some no_activity).
  { intros chain Hcfg Hwhy. subst txData. rewrite fanout_lookup.
    destruct Hwhy as [Hnone|Hrej].
    - rewrite decide_False by (by rewrite Hin).
      by apply init_txData_lookup_Some.
    - rewrite (rejected_count_no_write _ _ Hrej).
      case_decide; by apply init_txData_lookup_Some. }
  split; [exact Hdom|]. split.
  { rewrite <- size_dom, Hdom, size_dom. apply networks_size. }
  split; [apply NoDup_fst_map_to_list|]. split; [exact Hskip|].
  intros chain p Hp Hoff. apply Hskip; [exact (elem_of_dom_2 _ _ _ Hp)|].
  left. intros Hinst.
  rewrite (alchemyInstances_enabled chain p Hp Hinst) in Hoff.
  discriminate Hoff.
Qed.

End FanoutJoin.

Lemma fanout_covers_every_chain_witness :
  fanout full_sdk (λ _, provider_down)
    (elements (alchemyInstances full_sdk (λ _, true))) !! "fantom"%string
  = Some no_activity.
Proof.
  pose proof (fanout_covers_every_chain full_sdk (λ _, true)
                (λ _, provider_down)
                (elements (alchemyInstances full_sdk (λ _, true)))) as H.
  destruct H as (_ & _ & _ & Hskip & _).
  - unfold completion_order. reflexivity.
  - apply Hskip.
    + apply (bool_decide_unpack _). vm_compute. reflexivity.
    + right. reflexivity.
Defined.

(** ** The account age *)

Section AccountAge.

Implicit Types (txData : gmap string ChainData) (now : Z).

(** [hasTxButNoTimestamp] after the scan. *)
Lemma scan_hasTxButNoTimestamp txData :
  hasTxButNoTimestamp (scan txData) = true
  ↔ ∃ chain d, txData !! chain = Some d ∧ (0 < count d)%Z
               ∧ truthy (firstTxTimestamp d) = false.
Proof.
  unfold scan.
  apply (map_fold_weak_ind
           (λ acc m, hasTxButNoTimestamp acc = true
                     ↔ ∃ chain d, m !! chain = Some d ∧ (0 < count d)%Z
                                  ∧ truthy (firstTxTimestamp d) = false)).
  - split; [done|]. intros (k & d & Hk & _). by rewrite lookup_empty in Hk.
  - intros k d m acc Hnone IH. simpl.
    destruct ((0 <? count d)%Z && negb (truthy (firstTxTimestamp d))) eqn:Hc.
    + split; [intros _|done]. exists k, d.
      apply andb_prop in Hc as [Hpos Hts].
      rewrite lookup_insert_eq. split; [done|]. split; [lia|].
      by destruct (truthy (firstTxTimestamp d)).
    + rewrite IH. split; intros (k' & d' & Hk' & Hpos & Hts).
      * exists k', d'. rewrite lookup_insert_ne; [done|]. congruence.
      * apply lookup_insert_Some in Hk' as [[-> ->] | [_ Hk']].
        -- rewrite Hts in Hc. simpl in Hc. rewrite andb_true_r in Hc. lia.
        -- by exists k', d'.
Qed.

(** [oldestTxTimestamp] after the scan: unset when no chain has a
    timestamp, and the earliest one otherwise. *)
Lemma scan_oldestTxTimestamp txData :
  match oldestTxTimestamp (scan txData) with
  | None =>
      ∀ chain d, txData !! chain = Some d → truthy (firstTxTimestamp d) = false
  | Some t => earliest_timestamp txData t
  end.
Proof.
  unfold scan.
  apply (map_fold_weak_ind
           (λ acc m,
              match oldestTxTimestamp acc with
              | None =>
                  ∀ chain d, m !! chain = Some d →
                             truthy (firstTxTimestamp d) = false
              | Some t => earliest_timestamp m t
              end)).
  - simpl. intros k d Hk. by rewrite lookup_empty in Hk.
  - intros k d m acc Hnone IH. simpl.
    destruct (firstTxTimestamp d) as [t|] eqn:Hts; simpl.
    + destruct (t =? 0)%Z eqn:Ht0; simpl.
      * (* a zero timestamp is falsy and leaves the scan as it is *)
        apply Z.eqb_eq in Ht0 as ->.
        destruct (oldestTxTimestamp acc) as [o|].
        -- destruct IH as [(k' & d' & Hk' & Hd' & Ho) Hmin]. split.
           ++ exists k', d'. rewrite lookup_insert_ne; [done|]. congruence.
           ++ intros k'' d'' t'' [[-> ->] | [_ Hk'']]%lookup_insert_Some Ht'' Hnz.
              ** congruence.
              ** by eapply Hmin.
        -- intros k' d' [[-> ->] | [_ Hk']]%lookup_insert_Some.
           ++ by rewrite Hts.
           ++ by eapply IH.
      * apply Z.eqb_neq in Ht0.
        destruct (oldestTxTimestamp acc) as [o|] eqn:Ho; simpl.
        -- destruct IH as [(k' & d' & Hk' & Hd' & Hnz) Hmin].
           assert (Ho0 : (o =? 0)%Z = false) by by apply Z.eqb_neq.
           rewrite Ho0; simpl.
           destruct (t <? o)%Z eqn:Hlt.
           ++ apply Z.ltb_lt in Hlt. split.
              ** exists k, d. by rewrite lookup_insert_eq.
              ** intros k'' d'' t'' [[-> ->] | [_ Hk'']]%lookup_insert_Some Ht'' Hnz''.
                 --- rewrite Hts in Ht''. injection Ht'' as ->. lia.
                 --- specialize (Hmin _ _ _ Hk'' Ht'' Hnz''). lia.
           ++ apply Z.ltb_ge in Hlt. split.
              ** exists k', d'. rewrite lookup_insert_ne; [done|]. congruence.
              ** intros k'' d'' t'' [[-> ->] | [_ Hk'']]%lookup_insert_Some Ht'' Hnz''.
                 --- rewrite Hts in Ht''. injection Ht'' as ->. lia.
                 --- by eapply Hmin.
        -- split.
           ++ exists k, d. by rewrite lookup_insert_eq.
           ++ intros k'' d'' t'' [[-> ->] | [_ Hk'']]%lookup_insert_Some Ht'' Hnz''.
              ** rewrite Hts in Ht''. injection Ht'' as ->. lia.
              ** apply IH in Hk''. rewrite Ht'' in Hk''. simpl in Hk''.
                 apply negb_false_iff, Z.eqb_eq in Hk''. done.
    + destruct (oldestTxTimestamp acc) as [o|].
      * destruct IH as [(k' & d' & Hk' & Hd' & Ho) Hmin]. split.
        -- exists k', d'. rewrite lookup_insert_ne; [done|]. congruence.
        -- intros k'' d'' t'' [[-> ->] | [_ Hk'']]%lookup_insert_Some Ht'' Hnz.
           ++ congruence.
           ++ by eapply Hmin.
      * intros k' d' [[-> ->] | [_ Hk']]%lookup_insert_Some.
        -- by rewrite Hts.
        -- by eapply IH.
Qed.

Lemma totalTxCount_sum txData :
  totalTxCount txData = spec_totalTransactions txData.
Proof.
  unfold totalTxCount, spec_totalTransactions, Zsum.
  rewrite map_fold_foldr.
  induction (map_to_list txData) as [|[k d] l IH]; simpl in *; [done|].
  rewrite IH. apply Z.add_comm.
Qed.

(** The earliest timestamp is unique. *)
Lemma earliest_timestamp_unique txData t t' :
  earliest_timestamp txData t → earliest_timestamp txData t' → t = t'.
Proof.
  intros [(k & d & Hk & Hd & Hnz) Hmin] [(k' & d' & Hk' & Hd' & Hnz') Hmin'].
  specialize (Hmin _ _ _ Hk' Hd' Hnz'). specialize (Hmin' _ _ _ Hk Hd Hnz).
  lia.
Qed.

(** The three branches of the derivation. *)
Lemma accountAge_from_timestamp now txData t :
  earliest_timestamp txData t →
  accountAge now txData = ((now - t) / MS_PER_DAY)%Z.
Proof.
  intros Ht. unfold accountAge.
  pose proof (scan_oldestTxTimestamp txData) as Hscan.
  destruct (oldestTxTimestamp (scan txData)) as [o|].
  - assert (o = t) as -> by by eapply earliest_timestamp_unique.
    destruct Ht as [(_ & _ & _ & _ & Hnz) _]. simpl.
    apply Z.eqb_neq in Hnz. by rewrite Hnz.
  - destruct Ht as [(k & d & Hk & Hd & Hnz) _].
    apply Hscan in Hk. rewrite Hd in Hk. simpl in Hk.
    apply negb_false_iff, Z.eqb_eq in Hk. done.
Qed.

Lemma accountAge_without_timestamp now txData :
  (∀ chain d, txData !! chain = Some d → truthy (firstTxTimestamp d) = false) →
  accountAge now txData
  = if hasTxButNoTimestamp (scan txData)
    then Z.min (5 * spec_totalTransactions txData) 365 else 0%Z.
Proof.
  intros Hnone. unfold accountAge.
  pose proof (scan_oldestTxTimestamp txData) as Hscan.
  destruct (oldestTxTimestamp (scan txData)) as [o|].
  - destruct Hscan as [(k & d & Hk & Hd & Hnz) _].
    apply Hnone in Hk. rewrite Hd in Hk. simpl in Hk.
    apply negb_false_iff, Z.eqb_eq in Hk. done.
  - rewrite totalTxCount_sum. by rewrite (Z.mul_comm _ 5).
Qed.

End AccountAge.

Section AccountAgeCases.

Implicit Types (txData : gmap string ChainData) (now : Z).

(** The derivation on any map in which a timestamp only comes with
    transactions, as in every map the fan-out produces. *)
Lemma accountAge_cases now txData :
  (∀ chain d, txData !! chain = Some d →
     truthy (firstTxTimestamp d) = true → (0 < count d)%Z) →
  ((∃ chain d, txData !! chain = Some d ∧ truthy (firstTxTimestamp d) = true) →
     ∃ t, earliest_timestamp txData t
          ∧ accountAge now txData = ((now - t) / MS_PER_DAY)%Z)
  ∧ ((∀ chain d, txData !! chain = Some d →
        truthy (firstTxTimestamp d) = false) →
     (∃ chain d, txData !! chain = Some d ∧ (0 < count d)%Z) →
     accountAge now txData = Z.min (5 * spec_totalTransactions txData) 365)
  ∧ ((∀ chain d, txData !! chain = Some d → count d = 0%Z) →
     accountAge now txData = 0%Z)
  ∧ (∀ d, txData !! "ethereum"%string = Some d → count d = 10%Z →
       truthy (firstTxTimestamp d) = false →
       (∀ chain d', chain ≠ "ethereum"%string → txData !! chain = Some d' →
          count d' = 0%Z) →
       accountAge now txData = 50%Z).
Proof.
  intros Hwf.
  assert (Hcase2 :
    (∀ chain d, txData !! chain = Some d →
       truthy (firstTxTimestamp d) = false) →
    (∃ chain d, txData !! chain = Some d ∧ (0 < count d)%Z) →
    accountAge now txData = Z.min (5 * spec_totalTransactions txData) 365).
  { intros Hnone (k & d & Hk & Hpos).
    rewrite (accountAge_without_timestamp _ _ Hnone).
    assert (hasTxButNoTimestamp (scan txData) = true) as ->; [|done].
    apply scan_hasTxButNoTimestamp. exists k, d. eauto. }
  split; [|split; [exact Hcase2|split]].
  - intros (k & d & Hk & Hts).
    pose proof (scan_oldestTxTimestamp txData) as Hscan.
    destruct (oldestTxTimestamp (scan txData)) as [t|].
    + exists t. split; [done|]. by apply accountAge_from_timestamp.
    + apply Hscan in Hk. congruence.
  - intros Hzero.
    assert (Hnone : ∀ chain d, txData !! chain = Some d →
                      truthy (firstTxTimestamp d) = false).
    { intros k d Hk. destruct (truthy (firstTxTimestamp d)) eqn:Hts; [|done].
      pose proof (Hwf _ _ Hk Hts). pose proof (Hzero _ _ Hk). lia. }
    rewrite (accountAge_without_timestamp _ _ Hnone).
    destruct (hasTxButNoTimestamp (scan txData)) eqn:Hhas; [|done].
    apply scan_hasTxButNoTimestamp in Hhas as (k & d & Hk & Hpos & _).
    pose proof (Hzero _ _ Hk). lia.
  - intros d Heth Hten Hts Hrest.
    assert (Hnone : ∀ chain d', txData !! chain = Some d' →
                      truthy (firstTxTimestamp d') = false).
    { intros k d' Hk. destruct (decide (k = "ethereum"%string)) as [->|Hne].
      - congruence.
      - destruct (truthy (firstTxTimestamp d')) eqn:Hts'; [|done].
        pose proof (Hwf _ _ Hk Hts'). pose proof (Hrest _ _ Hne Hk). lia. }
    rewrite Hcase2; [|exact Hnone|exists "ethereum"%string, d; split; [done|lia]].
    rewrite <- (totals_transactions ∅), (totals_split _ _ _ _ Heth).
    rewrite totals_no_transactions.
    + simpl. rewrite Hten. reflexivity.
    + intros k d' [Hne Hk]%lookup_delete_Some. by eapply Hrest.
Qed.

(** C4. The account age the handler derives from the joined map: with at
    least one timestamp, the whole days between the earliest timestamp and
    now; with no timestamp but some chain with transactions,
    min(5 × total transaction count, 365); with no transaction on any
    chain, 0. In particular 10 transactions on Ethereum alone and no
    timestamp give an age of 50 days. A timestamp of 0 is falsy in the code
    and counts as no timestamp. *)
Theorem accountAge_derivation Network answers (order : list string) now :
  let txData := fanout Network answers order in
  ((∃ chain d, txData !! chain = Some d ∧ truthy (firstTxTimestamp d) = true) →
     ∃ t, earliest_timestamp txData t
          ∧ accountAge now txData = ((now - t) / MS_PER_DAY)%Z)
  ∧ ((∀ chain d, txData !! chain = Some d →
        truthy (firstTxTimestamp d) = false) →
     (∃ chain d, txData !! chain = Some d ∧ (0 < count d)%Z) →
     accountAge now txData = Z.min (5 * spec_totalTransactions txData) 365)
  ∧ ((∀ chain d, txData !! chain = Some d → count d = 0%Z) →
     accountAge now txData = 0%Z)
  ∧ (∀ d, txData !! "ethereum"%string = Some d → count d = 10%Z →
       truthy (firstTxTimestamp d) = false →
       (∀ chain d', chain ≠ "ethereum"%string → txData !! chain = Some d' →
          count d' = 0%Z) →
       accountAge now txData = 50%Z).
Proof.
  intros txData. apply accountAge_cases.
  intros chain d. apply fanout_timestamp_count.
Qed.

End AccountAgeCases.

Lemma accountAge_derivation_witness :
  accountAge 1750000000000 (fanout full_sdk scenario_D all_chains) = 50%Z.
Proof.
  pose proof (accountAge_derivation full_sdk scenario_D all_chains
                1750000000000) as H.
  destruct H as (_ & _ & _ & Hd).
  apply (Hd {| count := 10; firstTxTimestamp := None |}).
  - vm_compute. reflexivity.
  - reflexivity.
  - reflexivity.
  - intros chain d' Hne. rewrite fanout_lookup.
    assert (Htask : fetchTask chain (scenario_D chain) = Some no_activity).
    { unfold fetchTask, scenario_D; simpl.
      apply String.eqb_neq in Hne. rewrite Hne. reflexivity. }
    rewrite Htask.
    destruct (decide (chain ∈ all_chains)).
    + intros [= <-]. reflexivity.
    + intros Hinit%init_txData_lookup. by subst d'.
Defined.

(** ** The two endpoints *)

Section Endpoints.

Variable Network : string → option string.
Variable env : Env.
Variable now : Z.
Variable answers : string → ProviderAnswers.
Variable order : list string.

Lemma matches_wallet_regex_nonempty a :
  matches_wallet_regex a = true → (a =? "")%string = false.
Proof. by destruct a. Qed.

(** GET answers a well-formed address with the score. *)
Lemma get_valid_address fuel a :
  matches_wallet_regex a = true →
  app_handle Network env now answers order (S fuel) (get_request a)
  = Some (Score200 (walletScore Network env now answers order)).
Proof.
  intros Hok. pose proof (matches_wallet_regex_nonempty a Hok) as Hne.
  simpl. unfold route_of; simpl. rewrite Hne.
  unfold get_handler; simpl. by rewrite Hne, Hok.
Qed.

(** X17. Both endpoints reject a malformed address with the same 400. *)
Lemma same_validation fuel a :
  a ≠ ""%string →
  matches_wallet_regex a = false →
  app_handle Network env now answers order (S fuel) (get_request a)
  = Some InvalidAddress400
  ∧ app_handle Network env now answers order (S fuel)
      (post_request (JsString a))
    = Some InvalidAddress400.
Proof.
  intros Hne%String.eqb_neq Hbad. split; simpl.
  - unfold route_of; simpl. rewrite Hne.
    unfold get_handler; simpl. by rewrite Hne, Hbad.
  - unfold post_handler; simpl. by rewrite Hbad, andb_false_r.
Qed.

(** A POST request with a well-formed address is dispatched to the POST
    route again, however often [app.handle] is re-entered. *)
Lemma post_valid_address_loops fuel req a :
  method req = POST →
  path req = ["wallet-score"%string] →
  body_wallet_address req = JsString a →
  matches_wallet_regex a = true →
  app_handle Network env now answers order fuel req = None.
Proof.
  intros Hm Hp Hb Hok. pose proof (matches_wallet_regex_nonempty a Hok) as Hne.
  revert req Hm Hp Hb. induction fuel as [|fuel IH]; intros req Hm Hp Hb; [done|].
  simpl. rewrite Hm. unfold route_of. rewrite Hm, Hp.
  unfold post_handler; simpl. rewrite Hb, Hne, Hok; simpl.
  by apply IH.
Qed.

(** C8, on the code. For the example address GET answers with the score,
    while POST, after the same validation, hands the unchanged POST request
    back to [app.handle]: it is routed to the POST route again, never to
    the GET handler, and no dispatch depth produces a response. *)
Theorem post_does_not_reach_get_handler fuel :
  app_handle Network env now answers order (S fuel)
    (get_request example_address)
  = Some (Score200 (walletScore Network env now answers order))
  ∧ route_of (set_params (Some example_address)
                (post_request (JsString example_address)))
    = PostWalletScore
  ∧ app_handle Network env now answers order fuel
      (post_request (JsString example_address))
    = None.
Proof.
  split; [by apply get_valid_address|]. split; [reflexivity|].
  by apply (post_valid_address_loops fuel _ example_address).
Qed.

End Endpoints.

(** ** More on the score *)

Section MoreScoring.

Local Open Scope R_scope.

Lemma foldr_active_count nets (l : list (string * ChainData)) :
  activeNetworkCount (foldr (uncurry (loop_body nets)) totals0 l)
  = Z.of_nat (length (filter (λ kd, (3 ≤ count kd.2)%Z) l)).
Proof.
  induction l as [|[k d] l IH]; [done|].
  rewrite filter_cons. cbn [foldr uncurry loop_body activeNetworkCount].
  fold (uncurry (loop_body nets)). rewrite IH. simpl.
  destruct (3 <=? count d)%Z eqn:Hc.
  - apply Z.leb_le in Hc. rewrite decide_True by done. simpl. lia.
  - apply Z.leb_gt in Hc. rewrite decide_False by lia. done.
Qed.

Lemma Rmin_left (x : R) : x <= 1 → Rmin x 1 = x.
Proof. intros Hx. unfold Rmin. destruct (Rle_dec x 1); lra. Qed.

Lemma Rmin_right (x : R) : 1 <= x → Rmin x 1 = 1.
Proof. intros Hx. unfold Rmin. destruct (Rle_dec x 1); lra. Qed.

(** X1. [activeNetworks] is the number of chains with at least 3
    transactions; the activity component is a fifth of it per chain and is
    saturated from 5 such chains on. *)
Theorem activity_counts_busy_chains
    nets env (txData : gmap string ChainData) (age : R) :
  let r := calculateCreditScore nets env txData age in
  activeNetworks r = spec_activeNetworks txData
  ∧ ((spec_activeNetworks txData ≤ 5)%Z →
     activityComponent r = IZR (spec_activeNetworks txData) / 5)
  ∧ ((5 ≤ spec_activeNetworks txData)%Z → activityComponent r = 1).
Proof.
  simpl.
  assert (Hn : activeNetworkCount (totals nets txData)
               = spec_activeNetworks txData).
  { rewrite totals_foldr. apply foldr_active_count. }
  split; [exact Hn|]. unfold activityComponent_of, MAX_NETWORKS. rewrite Hn.
  split; intros Hle; apply IZR_le in Hle.
  - apply Rmin_left. lra.
  - apply Rmin_right. lra.
Qed.

Lemma Math_round_mono (x y : R) : x <= y → (Math_round x ≤ Math_round y)%Z.
Proof. intros Hxy. unfold Math_round. apply Zfloor_le. lra. Qed.

Lemma ageBonus_of_mono (t t' : Totals) (age : R) :
  (totalTransactions t ≤ totalTransactions t')%Z →
  ageBonus_of t age <= ageBonus_of t' age.
Proof.
  intros Hle. unfold ageBonus_of.
  destruct (0 <? totalTransactions t)%Z eqn:Ht;
    destruct (0 <? totalTransactions t')%Z eqn:Ht';
    destruct (Rlt_dec age 30); try lra.
  apply Z.ltb_lt in Ht. apply Z.ltb_ge in Ht'. lia.
Qed.

Lemma ageComponent_of_mono (t t' : Totals) (age : R) :
  (totalTransactions t ≤ totalTransactions t')%Z →
  ageComponent_of t age <= ageComponent_of t' age.
Proof.
  intros Hle. unfold ageComponent_of. apply Rmin_mono_l.
  pose proof (ageBonus_of_mono t t' age Hle). lra.
Qed.

Lemma activityComponent_of_mono (t t' : Totals) :
  (activeNetworkCount t ≤ activeNetworkCount t')%Z →
  activityComponent_of t <= activityComponent_of t'.
Proof.
  intros Hle%IZR_le. unfold activityComponent_of, MAX_NETWORKS.
  apply Rmin_mono_l. lra.
Qed.

Lemma finalScore_of_mono env (t t' : Totals) (age age' : R) :
  (MIN_SCORE env ≤ MAX_SCORE env)%Z →
  txComponent_of t <= txComponent_of t' →
  ageComponent_of t age <= ageComponent_of t' age' →
  activityComponent_of t <= activityComponent_of t' →
  finalScore_of env t age <= finalScore_of env t' age'.
Proof.
  intros Hrange%IZR_le Htx Hage Hact.
  unfold finalScore_of, weightedScore_of, TX_COUNT_WEIGHT, AGE_WEIGHT,
    ACTIVITY_WEIGHT. nra.
Qed.

(** X2. More transactions on a chain never lower the score: with every
    other entry unchanged, raising one chain's count leaves the score equal
    or higher. *)
Theorem score_monotone_in_count Network env
    (txData : gmap string ChainData) (chain : string) (d : ChainData)
    (c' : Z) (age : R) :
  (MIN_SCORE env ≤ MAX_SCORE env)%Z →
  0 <= age →
  txData !! chain = Some d →
  (count d ≤ c')%Z →
  (score (calculateCreditScore (networks Network) env txData age)
   ≤ score (calculateCreditScore (networks Network) env
              (<[chain := with_count c' d]> txData) age))%Z.
Proof.
  intros Hrange _ Hd Hle. simpl. apply Math_round_mono.
  rewrite (totals_split _ _ _ _ Hd), totals_update.
  set (acc := totals (networks Network) (delete chain txData)).
  apply finalScore_of_mono; [done|..].
  - apply txComponent_of_mono. simpl.
    apply IZR_le in Hle. pose proof (networkWeight_positive Network chain). nra.
  - apply ageComponent_of_mono. simpl. lia.
  - apply activityComponent_of_mono. simpl.
    destruct (3 <=? count d)%Z eqn:H3; destruct (3 <=? c')%Z eqn:H3'; lia.
Qed.

Lemma score_monotone_in_count_witness :
  (score (calculateCreditScore (networks full_sdk) default_env
            {[ "base"%string := {| count := 2; firstTxTimestamp := None |} ]}
            400)
   ≤ score (calculateCreditScore (networks full_sdk) default_env
              (<[ "base"%string :=
                    with_count 3 {| count := 2; firstTxTimestamp := None |} ]>
                 {[ "base"%string := {| count := 2; firstTxTimestamp := None |} ]})
              400))%Z.
Proof.
  apply (score_monotone_in_count full_sdk default_env).
  - simpl. lia.
  - lra.
  - apply lookup_singleton_eq.
  - simpl. lia.
Defined.

(** X3. Away from the 30-day edge the score grows with the age: for ages
    a <= b that are both below 30 days or both at least 30 days, and for
    any ages when the wallet has no transactions, the score at b is at
    least the score at a. *)
Theorem score_monotone_in_age_off_edge
    nets env (txData : gmap string ChainData) (a b : R) :
  (MIN_SCORE env ≤ MAX_SCORE env)%Z →
  0 <= a <= b →
  b < 30 ∨ 30 <= a ∨ (spec_totalTransactions txData ≤ 0)%Z →
  (score (calculateCreditScore nets env txData a)
   ≤ score (calculateCreditScore nets env txData b))%Z.
Proof.
  intros Hrange [Ha Hab] Hside. simpl. apply Math_round_mono.
  apply finalScore_of_mono; [done|lra| |lra].
  unfold ageComponent_of, MAX_ACCOUNT_AGE_DAYS. apply Rmin_mono_l.
  assert (Hsqrt : sqrt (a / 730) <= sqrt (b / 730)).
  { apply sqrt_le_1; lra. }
  assert (Hbonus : ageBonus_of (totals nets txData) a
                   <= ageBonus_of (totals nets txData) b); [|lra].
  unfold ageBonus_of. rewrite totals_transactions.
  destruct (0 <? spec_totalTransactions txData)%Z eqn:Htot; [|lra].
  apply Z.ltb_lt in Htot.
  destruct (Rlt_dec a 30); destruct (Rlt_dec b 30); try lra.
  destruct Hside as [?|[?|?]]; [lra|lra|lia].
Qed.

Lemma score_monotone_in_age_off_edge_witness :
  (score (calculateCreditScore (networks full_sdk) default_env
            {[ "base"%string := {| count := 2; firstTxTimestamp := None |} ]}
            30)
   ≤ score (calculateCreditScore (networks full_sdk) default_env
              {[ "base"%string := {| count := 2; firstTxTimestamp := None |} ]}
              31))%Z.
Proof.
  apply (score_monotone_in_age_off_edge (networks full_sdk) default_env).
  - simpl. lia.
  - lra.
  - right. left. lra.
Defined.

(** X4. A wallet that saturates all three components gets exactly
    [MAX_SCORE]: a weighted count of at least 500, an age of at least 730
    days and at least 5 active networks. *)
Theorem saturated_wallet_scores_maximum
    nets env (txData : gmap string ChainData) (age : R) :
  500 <= weightedTxCount (calculateCreditScore nets env txData age) →
  730 <= age →
  (5 ≤ activeNetworks (calculateCreditScore nets env txData age))%Z →
  txComponent (calculateCreditScore nets env txData age) = 1
  ∧ ageComponent (calculateCreditScore nets env txData age) = 1
  ∧ activityComponent (calculateCreditScore nets env txData age) = 1
  ∧ score (calculateCreditScore nets env txData age) = MAX_SCORE env.
Proof.
  simpl. intros Hw Hage Hact.
  set (t := totals nets txData) in *.
  assert (Htx : txComponent_of t = 1).
  { unfold txComponent_of, MAX_TX_COUNT.
    destruct (Rlt_dec 0 (totalWeightedTxCount t)) as [_|Hn]; [|lra].
    apply Rmin_right.
    pose proof ln_max_tx_pos as Hpos. unfold MAX_TX_COUNT in Hpos.
    assert (ln (500 + 1) <= ln (totalWeightedTxCount t + 1))
      by (apply ln_monotone; lra).
    apply (Rmult_le_reg_r (ln (500 + 1))); [done|].
    unfold Rdiv. rewrite Rmult_assoc, Rinv_l by lra. lra. }
  assert (Hag : ageComponent_of t age = 1).
  { unfold ageComponent_of, MAX_ACCOUNT_AGE_DAYS. apply Rmin_right.
    pose proof (ageBonus_of_nonneg t age).
    assert (sqrt 1 <= sqrt (age / 730)) by (apply sqrt_le_1; lra).
    rewrite sqrt_1 in *. lra. }
  assert (Hac : activityComponent_of t = 1).
  { unfold activityComponent_of, MAX_NETWORKS. apply Rmin_right.
    apply IZR_le in Hact. lra. }
  split; [done|]. split; [done|]. split; [done|].
  unfold finalScore_of, weightedScore_of, TX_COUNT_WEIGHT, AGE_WEIGHT,
    ACTIVITY_WEIGHT.
  rewrite Htx, Hag, Hac.
  replace (IZR (MIN_SCORE env)
           + (1 * 0.5 + 1 * 0.3 + 1 * 0.2)
             * (IZR (MAX_SCORE env) - IZR (MIN_SCORE env)))
    with (IZR (MAX_SCORE env)) by lra.
  apply Math_round_IZR.
Qed.

(** The loop reads nothing but the count of an entry. *)
Lemma totals_of_counts nets (txData : gmap string ChainData) :
  totals nets txData
  = map_fold (λ chain c, loop_body nets chain (with_count c no_activity))
      totals0 (count <$> txData).
Proof. unfold totals. by rewrite map_fold_fmap. Qed.

(** X5. The score function reads the counts only: two maps with the same
    count for every chain get the same score, components and label,
    whatever their timestamps. *)
Theorem score_ignores_timestamps
    nets env (txData txData' : gmap string ChainData) (age : R) :
  count <$> txData = count <$> txData' →
  score (calculateCreditScore nets env txData age)
  = score (calculateCreditScore nets env txData' age)
  ∧ txComponent (calculateCreditScore nets env txData age)
    = txComponent (calculateCreditScore nets env txData' age)
  ∧ ageComponent (calculateCreditScore nets env txData age)
    = ageComponent (calculateCreditScore nets env txData' age)
  ∧ activityComponent (calculateCreditScore nets env txData age)
    = activityComponent (calculateCreditScore nets env txData' age)
  ∧ status (calculateCreditScore nets env txData age)
    = status (calculateCreditScore nets env txData' age).
Proof.
  intros Hcounts. simpl.
  assert (Ht : totals nets txData = totals nets txData')
    by (by rewrite !totals_of_counts, Hcounts).
  by rewrite Ht.
Qed.

Lemma score_ignores_timestamps_witness :
  score (calculateCreditScore (networks full_sdk) default_env
           {[ "base"%string := {| count := 4; firstTxTimestamp := None |} ]}
           12)
  = score (calculateCreditScore (networks full_sdk) default_env
             {[ "base"%string :=
                  {| count := 4; firstTxTimestamp := Some 1700000000000%Z |} ]}
             12).
Proof.
  apply (score_ignores_timestamps (networks full_sdk) default_env).
  by rewrite !map_fmap_singleton.
Defined.

(** X6. The label in the result and the label the handler logs differ
    exactly when the score equals [PASS_THRESHOLD]: the result says "pass"
    from the threshold on, the log line only above it. *)
Theorem status_and_logged_label
    nets env (txData : gmap string ChainData) (age : R) :
  let r := calculateCreditScore nets env txData age in
  (status r = logged_label env (score r) ↔ score r ≠ PASS_THRESHOLD env)
  ∧ (score r = PASS_THRESHOLD env →
     status r = pass ∧ logged_label env (score r) = fail).
Proof.
  simpl. unfold logged_label.
  set (s := Math_round (finalScore_of env (totals nets txData) age)).
  destruct (PASS_THRESHOLD env <=? s)%Z eqn:Hle;
    destruct (PASS_THRESHOLD env <? s)%Z eqn:Hlt;
    (split; [split; [intros ?; try done; lia | intros ?; try done; lia]
            | intros ?; try done; lia]).
Qed.

End MoreScoring.

Lemma networkWeight_ethereum Network :
  networkWeight (networks Network) "ethereum" = 1%R.
Proof.
  unfold networkWeight.
  assert (networks Network !! "ethereum"%string ≫= weight = Some 1.0%R)
    as -> by reflexivity.
  rewrite or_default_truthy; lra.
Qed.

(** A wallet with 500 Ethereum transactions and 3 on four other chains. *)
Lemma totals_five_chains :
  let txData : gmap string ChainData :=
    <[ "ethereum"%string := {| count := 500; firstTxTimestamp := None |} ]>
      (<[ "polygon"%string := {| count := 3; firstTxTimestamp := None |} ]>
         (<[ "arbitrum"%string := {| count := 3; firstTxTimestamp := None |} ]>
            (<[ "optimism"%string := {| count := 3; firstTxTimestamp := None |} ]>
               (<[ "base"%string := {| count := 3; firstTxTimestamp := None |} ]>
                  ∅)))) in
  (500 <= totalWeightedTxCount (totals (networks full_sdk) txData))%R
  ∧ activeNetworkCount (totals (networks full_sdk) txData) = 5%Z.
Proof.
  intros txData. subst txData.
  rewrite !totals_insert by (vm_compute; reflexivity).
  unfold totals. rewrite map_fold_empty. simpl.
  rewrite networkWeight_ethereum.
  pose proof (networkWeight_positive full_sdk "polygon").
  pose proof (networkWeight_positive full_sdk "arbitrum").
  pose proof (networkWeight_positive full_sdk "optimism").
  pose proof (networkWeight_positive full_sdk "base").
  split; [lra | reflexivity].
Qed.

Lemma saturated_wallet_scores_maximum_witness :
  score (calculateCreditScore (networks full_sdk) default_env
           (<[ "ethereum"%string := {| count := 500; firstTxTimestamp := None |} ]>
              (<[ "polygon"%string := {| count := 3; firstTxTimestamp := None |} ]>
                 (<[ "arbitrum"%string := {| count := 3; firstTxTimestamp := None |} ]>
                    (<[ "optimism"%string := {| count := 3; firstTxTimestamp := None |} ]>
                       (<[ "base"%string := {| count := 3; firstTxTimestamp := None |} ]>
                          ∅)))))
           800) = 850%Z.
Proof.
  destruct totals_five_chains as [Hw Hact].
  apply (saturated_wallet_scores_maximum (networks full_sdk) default_env).
  - exact Hw.
  - lra.
  - simpl. rewrite Hact. lia.
Defined.

(** ** The stages of the timestamp lookup *)

Section FetchStages.

(** X7. When the first history query fails (it is rejected, times out or
    resolves to nothing) none of the fallback queries is consulted: the
    task records the count with no timestamp, whatever the later queries
    would have answered. *)
Theorem history_failure_skips_fallbacks (chain : string) (a : ProviderAnswers) :
  getAssetTransfers_first a = Rejected
  ∨ getAssetTransfers_first a = Fulfilled None →
  resolveTimestamp chain a = None
  ∧ ∀ c, getTransactionCount a = Fulfilled c →
         fetchTask chain a = Some {| count := c; firstTxTimestamp := None |}.
Proof.
  intros Hfirst.
  assert (Hres : resolveTimestamp chain a = None).
  { unfold resolveTimestamp. by destruct Hfirst as [-> | ->]. }
  split; [exact Hres|].
  intros c Hc. unfold fetchTask. rewrite Hc, Hres. by destruct (0 <? c)%Z.
Qed.

Lemma history_failure_skips_fallbacks_witness :
  fetchTask "ethereum" history_down
  = Some {| count := 7; firstTxTimestamp := None |}.
Proof.
  apply (history_failure_skips_fallbacks "ethereum" history_down).
  - left. reflexivity.
  - reflexivity.
Defined.

(** X8. A timestamp found by the first history query is final: when the
    first transfer of the first answer carries a non-zero timestamp, that
    is the chain's timestamp, whatever the fallback queries answer. *)
Theorem first_history_timestamp_wins
    (chain : string) (a : ProviderAnswers) (history : TransfersResponse) (t : Z) :
  getAssetTransfers_first a = Fulfilled (Some history) →
  head_timestamp history = Some (Some t) →
  t ≠ 0%Z →
  resolveTimestamp chain a = Some t
  ∧ ∀ c, getTransactionCount a = Fulfilled c → (0 < c)%Z →
         fetchTask chain a = Some {| count := c; firstTxTimestamp := Some t |}.
Proof.
  intros Hfirst Hhead Hnz.
  assert (Hres : resolveTimestamp chain a = Some t).
  { unfold resolveTimestamp. rewrite Hfirst, Hhead. simpl.
    apply Z.eqb_neq in Hnz. by rewrite Hnz. }
  split; [exact Hres|].
  intros c Hc Hpos. unfold fetchTask. rewrite Hc, Hres.
  apply Z.ltb_lt in Hpos. by rewrite Hpos.
Qed.

Lemma first_history_timestamp_wins_witness :
  resolveTimestamp "polygon" history_up = Some 1500000000000%Z.
Proof.
  eapply (first_history_timestamp_wins "polygon" history_up).
  - reflexivity.
  - reflexivity.
  - lia.
Defined.

(** X9. The token-ownership query is a fallback for Ethereum only: on any
    other chain the timestamp does not depend on what [getNftsForOwner]
    answers. *)
Theorem nft_fallback_only_on_ethereum
    (chain : string) (a : ProviderAnswers) (n : Settled (option NftsResponse)) :
  chain ≠ "ethereum"%string →
  resolveTimestamp chain (with_nfts n a) = resolveTimestamp chain a
  ∧ fetchTask chain (with_nfts n a) = fetchTask chain a.
Proof.
  intros Hne%String.eqb_neq.
  assert (Hres : resolveTimestamp chain (with_nfts n a)
                 = resolveTimestamp chain a).
  { unfold resolveTimestamp; simpl. rewrite Hne.
    destruct (getAssetTransfers_first a) as [[history|]|]; [|done..].
    by rewrite !andb_false_r. }
  split; [exact Hres|]. unfold fetchTask; simpl. by rewrite Hres.
Qed.

Lemma nft_fallback_only_on_ethereum_witness :
  resolveTimestamp "polygon" (with_nfts Rejected history_down)
  = resolveTimestamp "polygon" history_down.
Proof.
  apply (nft_fallback_only_on_ethereum "polygon" history_down Rejected).
  intros H. discriminate H.
Defined.

End FetchStages.

(** ** More on the join *)

Section MoreFanout.

Variable Network : string → option string.
Variable alchemy_ok : string → bool.
Variable answers : string → ProviderAnswers.

(** X10. A chain whose count query succeeds carries exactly the count the
    provider reported, whether or not any timestamp query succeeds, and it
    carries a timestamp only if that count is positive. *)
Theorem fanout_records_count (order : list string) (chain : string) (c : Z) :
  completion_order Network alchemy_ok order →
  chain ∈ alchemyInstances Network alchemy_ok →
  getTransactionCount (answers chain) = Fulfilled c →
  ∃ d, fanout Network answers order !! chain = Some d
       ∧ count d = c
       ∧ ((c ≤ 0)%Z → firstTxTimestamp d = None).
Proof.
  intros Horder Hinst Hc.
  assert (Hin : chain ∈ order).
  { unfold completion_order in Horder. rewrite Horder.
    by apply elem_of_elements. }
  rewrite fanout_lookup, (decide_True (P := chain ∈ order)) by exact Hin.
  unfold fetchTask. rewrite Hc. eexists. split; [reflexivity|].
  split; [reflexivity|]. simpl. intros Hle.
  destruct (0 <? c)%Z eqn:Hpos; [lia|done].
Qed.

(** X11. The joined map, and with it the score, does not depend on the
    order in which the tasks complete. *)
Theorem fanout_order_irrelevant env now (order order' : list string) :
  completion_order Network alchemy_ok order →
  completion_order Network alchemy_ok order' →
  fanout Network answers order = fanout Network answers order'
  ∧ walletScore Network env now answers order
    = walletScore Network env now answers order'.
Proof.
  unfold completion_order. intros Ho Ho'.
  assert (Heq : fanout Network answers order = fanout Network answers order').
  { apply map_eq. intros chain. rewrite !fanout_lookup.
    assert (Hiff : chain ∈ order ↔ chain ∈ order') by (by rewrite Ho, Ho').
    destruct (decide (chain ∈ order)) as [Hin|Hnin].
    - by rewrite decide_True by (by apply Hiff).
    - by rewrite decide_False by (by rewrite <- Hiff). }
  split; [exact Heq|]. unfold walletScore. by rewrite Heq.
Qed.

Lemma finalScore_of_no_activity env :
  finalScore_of env totals0 0 = IZR (MIN_SCORE env).
Proof.
  unfold finalScore_of, weightedScore_of, txComponent_of, ageComponent_of,
    activityComponent_of, ageBonus_of, totals0, MAX_ACCOUNT_AGE_DAYS,
    MAX_NETWORKS; simpl.
  destruct (Rlt_dec 0 0) as [Hlt|_]; [lra|].
  replace (0 / 730)%R with 0%R by lra. rewrite sqrt_0.
  rewrite (Rmin_left (0 + 0)) by lra. rewrite (Rmin_left (0 / 5)) by lra.
  lra.
Qed.

(** X12. When no transaction is found on any chain (every count query is
    rejected, times out or answers 0) the handler still answers, and its
    answer is [MIN_SCORE]: every entry of the joined map is
    [{ count: 0, firstTxTimestamp: null }] and the age is 0. *)
Theorem outage_scores_minimum env now (order : list string) :
  (∀ chain, chain ∈ order → no_transactions_found (answers chain)) →
  (∀ chain d, fanout Network answers order !! chain = Some d → d = no_activity)
  ∧ accountAge now (fanout Network answers order) = 0%Z
  ∧ walletScore Network env now answers order = MIN_SCORE env.
Proof.
  intros Hnone.
  assert (Hall : ∀ chain d, fanout Network answers order !! chain = Some d →
                   d = no_activity).
  { intros chain d. rewrite fanout_lookup.
    destruct (decide (chain ∈ order)) as [Hin|_];
      [|by apply init_txData_lookup].
    unfold fetchTask.
    destruct (Hnone chain Hin) as [-> | ->].
    - by apply init_txData_lookup.
    - simpl. by intros [= <-]. }
  assert (Hzero : ∀ chain d, fanout Network answers order !! chain = Some d →
                    count d = 0%Z).
  { intros chain d Hd. by rewrite (Hall _ _ Hd). }
  assert (Hage : accountAge now (fanout Network answers order) = 0%Z).
  { apply accountAge_cases; [|exact Hzero].
    intros chain d. apply fanout_timestamp_count. }
  split; [exact Hall|]. split; [exact Hage|].
  unfold walletScore. simpl. rewrite Hage.
  rewrite (totals_no_transactions _ _ Hzero), finalScore_of_no_activity.
  apply Math_round_IZR.
Qed.

End MoreFanout.

Lemma fanout_records_count_witness :
  ∃ d, fanout full_sdk scenario_D
         (elements (alchemyInstances full_sdk (λ _, true)))
       !! "ethereum"%string = Some d
       ∧ count d = 10%Z
       ∧ ((10 ≤ 0)%Z → firstTxTimestamp d = None).
Proof.
  apply (fanout_records_count full_sdk (λ _, true) scenario_D).
  - unfold completion_order. reflexivity.
  - apply (bool_decide_unpack _). vm_compute. reflexivity.
  - reflexivity.
Defined.

Lemma fanout_order_irrelevant_witness :
  walletScore full_sdk default_env 1750000000000 scenario_D
    (elements (alchemyInstances full_sdk (λ _, true)))
  = walletScore full_sdk default_env 1750000000000 scenario_D
      (reverse (elements (alchemyInstances full_sdk (λ _, true)))).
Proof.
  apply (fanout_order_irrelevant full_sdk (λ _, true) scenario_D
           default_env 1750000000000).
  - unfold completion_order. reflexivity.
  - unfold completion_order. apply reverse_Permutation.
Defined.

Lemma outage_scores_minimum_witness :
  walletScore full_sdk default_env 1750000000000 (λ _, provider_down) all_chains
  = 300%Z.
Proof.
  apply (outage_scores_minimum full_sdk (λ _, provider_down) default_env
           1750000000000 all_chains).
  intros chain _. left. reflexivity.
Defined.

(** ** More on the account age *)

Section MoreAccountAge.

Implicit Types (txData : gmap string ChainData) (now : Z).

Lemma Zsum_nonneg (l : list Z) : Forall (λ z, (0 ≤ z)%Z) l → (0 ≤ Zsum l)%Z.
Proof. unfold Zsum. induction 1 as [|z l Hz _ IH]; simpl; lia. Qed.

Lemma totalTransactions_nonneg txData :
  (∀ chain d, txData !! chain = Some d → (0 ≤ count d)%Z) →
  (0 ≤ spec_totalTransactions txData)%Z.
Proof.
  intros Hnn. apply Zsum_nonneg, Forall_fmap, Forall_forall.
  intros [k d] Hkd%elem_of_map_to_list. by apply (Hnn k).
Qed.

Lemma Zsum_positive_elem (l : list Z) :
  (0 < Zsum l)%Z → ∃ z, z ∈ l ∧ (0 < z)%Z.
Proof.
  unfold Zsum. induction l as [|z l IH]; simpl; [lia|]. intros Hpos.
  destruct (decide (0 < z)%Z) as [Hz|Hz].
  - exists z. split; [apply list_elem_of_here|done].
  - destruct IH as (z' & Hin & Hz'); [lia|].
    exists z'. split; [by apply list_elem_of_further|done].
Qed.

Lemma positive_total_has_positive_count txData :
  (0 < spec_totalTransactions txData)%Z →
  ∃ chain d, txData !! chain = Some d ∧ (0 < count d)%Z.
Proof.
  intros (z & Hin & Hz)%Zsum_positive_elem.
  apply list_elem_of_fmap in Hin as ([k d] & -> & Hkd%elem_of_map_to_list).
  by exists k, d.
Qed.

(** X13. The age is never negative when no timestamp lies after [now] and
    no count is negative, and an age estimated from counts alone is at
    most 365 days. *)
Theorem accountAge_nonnegative now txData :
  (∀ chain d t, txData !! chain = Some d → firstTxTimestamp d = Some t →
                (t ≤ now)%Z) →
  (∀ chain d, txData !! chain = Some d → (0 ≤ count d)%Z) →
  (0 ≤ accountAge now txData)%Z
  ∧ ((∀ chain d, txData !! chain = Some d →
        truthy (firstTxTimestamp d) = false) →
     (accountAge now txData ≤ 365)%Z).
Proof.
  intros Hpast Hnn.
  pose proof (totalTransactions_nonneg txData Hnn) as Htot.
  pose proof (scan_oldestTxTimestamp txData) as Hscan.
  split.
  - destruct (oldestTxTimestamp (scan txData)) as [t|] eqn:Ho.
    + rewrite (accountAge_from_timestamp now txData t Hscan).
      destruct Hscan as [(k & d & Hk & Hd & _) _].
      pose proof (Hpast _ _ _ Hk Hd).
      apply Z.div_pos; [lia|]. unfold MS_PER_DAY. lia.
    + rewrite (accountAge_without_timestamp now txData Hscan).
      destruct (hasTxButNoTimestamp (scan txData)); lia.
  - intros Hnone. rewrite (accountAge_without_timestamp now txData Hnone).
    destruct (hasTxButNoTimestamp (scan txData)); lia.
Qed.

Lemma accountAge_nonnegative_witness :
  (0 ≤ accountAge 1750000000000
         {[ "base"%string :=
              {| count := 4; firstTxTimestamp := Some 1700000000000%Z |} ]})%Z.
Proof.
  apply (accountAge_nonnegative 1750000000000
           {[ "base"%string :=
                {| count := 4; firstTxTimestamp := Some 1700000000000%Z |} ]}).
  - intros chain d t Hd Ht. apply lookup_singleton_Some in Hd as [_ <-].
    injection Ht as <-. lia.
  - intros chain d Hd. apply lookup_singleton_Some in Hd as [_ <-]. simpl. lia.
Defined.

(** X14. The handler does not clamp the age: when the earliest timestamp
    lies after [now] (a clock that runs behind the provider's) the derived
    age is negative. *)
Theorem future_timestamp_gives_negative_age now txData (t : Z) :
  earliest_timestamp txData t →
  (now < t)%Z →
  (accountAge now txData < 0)%Z.
Proof.
  intros Ht Hlt. rewrite (accountAge_from_timestamp now txData t Ht).
  apply Z.div_lt_upper_bound; unfold MS_PER_DAY; lia.
Qed.

Lemma future_timestamp_gives_negative_age_witness :
  (accountAge 1700000000000
     {[ "base"%string :=
          {| count := 4; firstTxTimestamp := Some 1700000000001%Z |} ]} < 0)%Z.
Proof.
  apply (future_timestamp_gives_negative_age 1700000000000 _ 1700000000001).
  - split.
    + exists "base"%string, {| count := 4; firstTxTimestamp := Some 1700000000001%Z |}.
      split; [apply lookup_singleton_eq|]. split; [reflexivity|lia].
    + intros chain d t' Hd Ht' _. apply lookup_singleton_Some in Hd as [_ <-].
      injection Ht' as <-. lia.
  - lia.
Defined.

Lemma scan_body_falsy_to_null chain d acc :
  scan_body chain (falsy_to_null d) acc = scan_body chain d acc.
Proof.
  unfold scan_body, falsy_to_null, with_timestamp; simpl.
  destruct (truthy (firstTxTimestamp d)) eqn:Hts; simpl; by rewrite ?Hts.
Qed.

Lemma scan_falsy_to_null txData : scan (falsy_to_null <$> txData) = scan txData.
Proof.
  unfold scan. rewrite map_fold_fmap, !map_fold_foldr.
  induction (map_to_list txData) as [|[k d] l IH]; simpl; [done|].
  rewrite IH. apply scan_body_falsy_to_null.
Qed.

Lemma totalTxCount_falsy_to_null txData :
  totalTxCount (falsy_to_null <$> txData) = totalTxCount txData.
Proof. unfold totalTxCount. by rewrite map_fold_fmap. Qed.

Lemma accountAge_falsy_to_null now txData :
  accountAge now (falsy_to_null <$> txData) = accountAge now txData.
Proof.
  unfold accountAge.
  by rewrite scan_falsy_to_null, totalTxCount_falsy_to_null.
Qed.

(** X15. A timestamp of 0 (the epoch itself) is read as no timestamp: the
    age is the same whether a chain's entry holds the timestamp 0 or
    none. *)
Theorem zero_timestamp_is_no_timestamp now txData (chain : string) (d : ChainData) :
  accountAge now (<[chain := with_timestamp (Some 0%Z) d]> txData)
  = accountAge now (<[chain := with_timestamp None d]> txData).
Proof.
  rewrite <- (accountAge_falsy_to_null now (<[chain := with_timestamp (Some 0%Z) d]> txData)).
  rewrite <- (accountAge_falsy_to_null now (<[chain := with_timestamp None d]> txData)).
  by rewrite !fmap_insert.
Qed.

(** X16. For a wallet whose age is estimated from counts (no chain has a
    timestamp, no count is negative), the age bonus is granted exactly
    when the wallet has between 1 and 5 transactions in total. *)
Theorem estimated_age_bonus nets now txData :
  (∀ chain d, txData !! chain = Some d → truthy (firstTxTimestamp d) = false) →
  (∀ chain d, txData !! chain = Some d → (0 ≤ count d)%Z) →
  (ageBonus_of (totals nets txData) (IZR (accountAge now txData)) = 0.1%R
   ↔ (1 ≤ spec_totalTransactions txData ≤ 5)%Z)
  ∧ (ageBonus_of (totals nets txData) (IZR (accountAge now txData)) = 0%R
     ↔ ¬ (1 ≤ spec_totalTransactions txData ≤ 5)%Z).
Proof.
  intros Hnone Hnn.
  pose proof (totalTransactions_nonneg txData Hnn) as Htot.
  assert (Hage : accountAge now txData
                 = Z.min (5 * spec_totalTransactions txData) 365).
  { rewrite (accountAge_without_timestamp now txData Hnone).
    destruct (hasTxButNoTimestamp (scan txData)) eqn:Hhas; [done|].
    assert (Hzero : spec_totalTransactions txData = 0%Z); [|lia].
    destruct (decide (spec_totalTransactions txData = 0%Z)) as [|Hne]; [done|].
    assert (Hex : ∃ chain d, txData !! chain = Some d ∧ (0 < count d)%Z)
      by (apply positive_total_has_positive_count; lia).
    destruct Hex as (k & d & Hk & Hpos).
    assert (hasTxButNoTimestamp (scan txData) = true); [|congruence].
    apply scan_hasTxButNoTimestamp. exists k, d. eauto. }
  unfold ageBonus_of. rewrite totals_transactions, Hage.
  destruct (0 <? spec_totalTransactions txData)%Z eqn:Hpos.
  - apply Z.ltb_lt in Hpos.
    destruct (Rlt_dec (IZR (Z.min (5 * spec_totalTransactions txData) 365)) 30)
      as [Hlt|Hge].
    + apply lt_IZR in Hlt. split; (split; [intros ?|intros ?]); try lia; lra.
    + assert (30 ≤ Z.min (5 * spec_totalTransactions txData) 365)%Z.
      { apply le_IZR. lra. }
      split; (split; [intros ?|intros ?]); try lia; lra.
  - apply Z.ltb_ge in Hpos.
    split; (split; [intros ?|intros ?]); try lia; lra.
Qed.

End MoreAccountAge.

Lemma estimated_age_bonus_witness :
  (ageBonus_of
     (totals (networks full_sdk)
        {[ "base"%string := {| count := 4; firstTxTimestamp := None |} ]})
     (IZR (accountAge 1750000000000
             {[ "base"%string := {| count := 4; firstTxTimestamp := None |} ]}))
   = 0.1%R
   ↔ (1 ≤ spec_totalTransactions
            {[ "base"%string := {| count := 4; firstTxTimestamp := None |} ]}
        ≤ 5)%Z)
  ∧ (ageBonus_of
       (totals (networks full_sdk)
          {[ "base"%string := {| count := 4; firstTxTimestamp := None |} ]})
       (IZR (accountAge 1750000000000
               {[ "base"%string := {| count := 4; firstTxTimestamp := None |} ]}))
     = 0%R
     ↔ ¬ (1 ≤ spec_totalTransactions
              {[ "base"%string := {| count := 4; firstTxTimestamp := None |} ]}
          ≤ 5)%Z).
Proof.
  apply (estimated_age_bonus (networks full_sdk) 1750000000000).
  - intros chain d Hd. apply lookup_singleton_Some in Hd as [_ <-]. reflexivity.
  - intros chain d Hd. apply lookup_singleton_Some in Hd as [_ <-]. simpl. lia.
Defined.

(** ** More on the endpoints *)

Section MoreEndpoints.

Variable Network : string → option string.
Variable env : Env.
Variable now : Z.
Variable answers : string → ProviderAnswers.
Variable order : list string.


End MoreEndpoints.

Lemma same_validation_witness :
  app_handle full_sdk default_env 1750000000000 scenario_D all_chains 1
    (get_request "0x12345")
  = Some InvalidAddress400
  ∧ app_handle full_sdk default_env 1750000000000 scenario_D all_chains 1
      (post_request (JsString "0x12345"))
    = Some InvalidAddress400.
Proof.
  apply (same_validation full_sdk default_env 1750000000000 scenario_D
           all_chains 0 "0x12345").
  - intros H. discriminate H.
  - reflexivity.
Defined.

(** ** The page *)

Section FrontEnd.

Local Open Scope R_scope.

(** X19. The colour and the rating of a score always belong to the same
    band. *)
Theorem color_matches_rating (s : R) :
  getScoreColor s = color_of_rating (getScoreRating s).
Proof.
  unfold getScoreColor, getScoreRating.
  by repeat destruct (Rle_dec _ _).
Qed.

(** X20. With the default threshold the kernel's label and the page agree:
    the result says "pass" exactly when the page rates the score Good or
    Excellent, and "fail" exactly when it rates it Fair or Poor. *)
Theorem pass_is_good_or_excellent
    nets (txData : gmap string ChainData) (age : R) :
  let r := calculateCreditScore nets default_env txData age in
  (status r = pass
   ↔ getScoreRating (IZR (score r)) = Good
     ∨ getScoreRating (IZR (score r)) = Excellent)
  ∧ (status r = fail
     ↔ getScoreRating (IZR (score r)) = Fair
       ∨ getScoreRating (IZR (score r)) = Poor).
Proof.
  simpl.
  set (s := Math_round (finalScore_of default_env (totals nets txData) age)).
  unfold getScoreRating.
  destruct (600 <=? s)%Z eqn:Hs.
  - apply Z.leb_le, IZR_le in Hs.
    destruct (Rle_dec 750 (IZR s)); [|destruct (Rle_dec 600 (IZR s)); [|lra]];
      (split; split; intros H; try done; try (by left); try (by right);
       destruct H; done).
  - apply Z.leb_gt, IZR_lt in Hs.
    destruct (Rle_dec 750 (IZR s)); [lra|].
    destruct (Rle_dec 600 (IZR s)); [lra|].
    destruct (Rle_dec 450 (IZR s));
      (split; split; intros H; try done; try (by left); try (by right);
       destruct H; done).
Qed.

End FrontEnd.

(** ** Which chains get a task *)

Section Instances.

Variable Network : string → option string.
Variable alchemy_ok : string → bool.

(** In the shipped table the enable flag of a chain is true whenever the
    SDK defines the chain's network. *)
Lemma networks_enabled_when_defined chain p :
  networks Network !! chain = Some p →
  is_Some (network p) → enabled p = true.
Proof.
  unfold networks. intros Hp Hdef. apply elem_of_list_to_map_2 in Hp.
  repeat (apply elem_of_cons in Hp as [Hp|Hp];
          [simplify_eq; simpl in *; unfold is_defined;
           rewrite ?bool_decide_eq_true_2 by done; reflexivity|]).
  by apply elem_of_nil in Hp.
Qed.

(** X21. A configured chain gets an Alchemy instance, and so a fetch task,
    exactly when the installed SDK defines its network and the constructor
    does not throw; no chain outside the table ever gets one. *)
Theorem instance_iff_sdk_network (chain : string) :
  chain ∈ alchemyInstances Network alchemy_ok
  ↔ ∃ p, networks Network !! chain = Some p
         ∧ is_Some (network p) ∧ alchemy_ok chain = true.
Proof.
  unfold alchemyInstances. rewrite elem_of_dom. split.
  - intros [p Hp]. apply map_lookup_filter_Some in Hp as [Hp Hinst].
    simpl in Hinst. unfold has_instance in Hinst.
    apply andb_prop in Hinst as [[_ Hdef%bool_decide_eq_true]%andb_prop Hok].
    by exists p.
  - intros (p & Hp & Hdef & Hok). exists p.
    apply map_lookup_filter_Some. split; [done|]. simpl.
    unfold has_instance.
    rewrite (networks_enabled_when_defined chain p Hp Hdef), Hok.
    by rewrite bool_decide_eq_true_2.
Qed.

End Instances.
